(** * ClinVar query tools: a shallow embedding of the two resolvers

    The repository holds two Python scripts,
    [ClinVar_query_tool_single_variant.py] and [Clinvar_query_tool_batch.py].
    Each defines [query_clinvar_for_specific_variant]; the batch script also
    defines [batch_query_from_excel].

    The scripts work on decoded JSON with Python's dynamic operations
    ([d[k]], [d.get(k, default)], truthiness, iteration, [isinstance],
    [str.upper], [str.join]).  These are modelled below on a type of Python
    values, each with the exception Python raises where the operand has the
    wrong shape.  Network access is modelled by a [server] giving the response
    to each request; the requests issued are logged so that statements about
    "no detail fetch" can be made. *)

From Stdlib Require Import String Ascii List ZArith Bool Lia.
From Stdlib Require Import DecimalString.
Import ListNotations.
Local Open Scope string_scope.
#[local] Set Warnings "-register-all".

(** ** Python values *)

(** Decoded JSON, which is also what the resolvers return (a [str] or a
    [dict]).  A dict keeps its insertion order, as Python's does.  Strings
    are byte strings; numbers are integers, which is all the operations used
    here can tell apart in a number (zero or not). *)
Inductive value : Type :=
| VNone
| VBool (b : bool)
| VNum (n : Z)
| VStr (s : string)
| VList (l : list value)
| VDict (m : list (string * value)).

Inductive exn : Type :=
| KeyError
| IndexError
| TypeError
| AttributeError
| UnboundLocalError.

(** Outcome of a computation that may raise. *)
Inductive res (A : Type) : Type :=
| Ret (a : A)
| Raise (e : exn).
Arguments Ret {A} a.
Arguments Raise {A} e.

Definition res_bind {A B} (c : res A) (f : A -> res B) : res B :=
  match c with
  | Ret a => f a
  | Raise e => Raise e
  end.

Notation "x <- c ;; k" := (res_bind c (fun x => k))
  (at level 61, c at next level, right associativity).

Fixpoint res_map {A B} (f : A -> res B) (l : list A) : res (list B) :=
  match l with
  | [] => Ret []
  | a :: l' =>
      b <- f a ;; bs <- res_map f l' ;; Ret (b :: bs)
  end.

(** *** Strings *)

Definition upper_ascii (c : ascii) : ascii :=
  let n := nat_of_ascii c in
  if (97 <=? n)%nat && (n <=? 122)%nat then ascii_of_nat (n - 32) else c.

Definition lower_ascii (c : ascii) : ascii :=
  let n := nat_of_ascii c in
  if (65 <=? n)%nat && (n <=? 90)%nat then ascii_of_nat (n + 32) else c.

Fixpoint string_map (f : ascii -> ascii) (s : string) : string :=
  match s with
  | EmptyString => EmptyString
  | String c s' => String (f c) (string_map f s')
  end.

(** [str.upper] and [str.lower] on byte strings: the ASCII case mapping,
    which is what Python computes on ASCII text.  On other text Python's
    mappings are Unicode's and are not modelled; statements that depend on
    what the mappings compute are made for ASCII text only. *)
Definition upper (s : string) : string := string_map upper_ascii s.
Definition lower (s : string) : string := string_map lower_ascii s.

(** [needle in hay] for strings. *)
Fixpoint contains (needle hay : string) : bool :=
  String.prefix needle hay ||
  match hay with
  | EmptyString => false
  | String _ hay' => contains needle hay'
  end.

(** [sep.join(l)] for a list of strings. *)
Fixpoint join (sep : string) (l : list string) : string :=
  match l with
  | [] => EmptyString
  | [s] => s
  | s :: l' => s ++ sep ++ join sep l'
  end.

(** The characters of a string, each as a one-character string. *)
Fixpoint chars (s : string) : list string :=
  match s with
  | EmptyString => []
  | String c s' => String c EmptyString :: chars s'
  end.

(** The ASCII characters [str.strip] removes (Unicode's other blanks are
    outside the byte-string model). *)
Definition is_space (c : ascii) : bool :=
  let n := nat_of_ascii c in
  ((9 <=? n)%nat && (n <=? 13)%nat) || ((28 <=? n)%nat && (n <=? 32)%nat).

Fixpoint lstrip (s : string) : string :=
  match s with
  | EmptyString => EmptyString
  | String c s' => if is_space c then lstrip s' else s
  end.

Fixpoint rstrip (s : string) : string :=
  match s with
  | EmptyString => EmptyString
  | String c s' =>
      match rstrip s' with
      | EmptyString => if is_space c then EmptyString else String c EmptyString
      | t => String c t
      end
  end.

(** [str.strip()]. *)
Definition strip (s : string) : string := rstrip (lstrip s).

Definition in_strings (s : string) (l : list string) : bool :=
  existsb (String.eqb s) l.

(** *** Dynamic operations *)

Fixpoint lookup (k : string) (m : list (string * value)) : option value :=
  match m with
  | [] => None
  | (k', v) :: m' => if String.eqb k k' then Some v else lookup k m'
  end.

(** [bool(v)]. *)
Definition truthy (v : value) : bool :=
  match v with
  | VNone => false
  | VBool b => b
  | VNum n => negb (Z.eqb n 0)
  | VStr s => negb (String.eqb s EmptyString)
  | VList l => match l with [] => false | _ => true end
  | VDict m => match m with [] => false | _ => true end
  end.

(** [v[k]] for a string key [k]. *)
Definition subscript (v : value) (k : string) : res value :=
  match v with
  | VDict m =>
      match lookup k m with
      | Some x => Ret x
      | None => Raise KeyError
      end
  | _ => Raise TypeError
  end.

(** [v[0]]. *)
Definition subscript0 (v : value) : res value :=
  match v with
  | VList (x :: _) => Ret x
  | VList [] => Raise IndexError
  | VStr (String c _) => Ret (VStr (String c EmptyString))
  | VStr EmptyString => Raise IndexError
  | VDict _ => Raise KeyError
  | _ => Raise TypeError
  end.

(** [m.get(k, dflt)] on a dict [m] with a string key. *)
Definition dict_get (m : list (string * value)) (k : string) (dflt : value)
  : value :=
  match lookup k m with
  | Some x => x
  | None => dflt
  end.

(** [v.get(k, dflt)].  Only a dict has [get]; its keys are strings, so a
    hashable key that is not a string finds nothing, and a list or dict key is
    unhashable. *)
Definition get (v : value) (k : value) (dflt : value) : res value :=
  match v with
  | VDict m =>
      match k with
      | VStr s => Ret (dict_get m s dflt)
      | VList _ | VDict _ => Raise TypeError
      | _ => Ret dflt
      end
  | _ => Raise AttributeError
  end.

(** Reading a local variable that may not have been assigned. *)
Definition read_local {A} (x : option A) : res A :=
  match x with
  | Some a => Ret a
  | None => Raise UnboundLocalError
  end.

(** The elements a [for] loop (or [join]) visits. *)
Definition iter (v : value) : res (list value) :=
  match v with
  | VList l => Ret l
  | VStr s => Ret (map VStr (chars s))
  | VDict m => Ret (map (fun kv => VStr (fst kv)) m)
  | _ => Raise TypeError
  end.

Definition is_dict (v : value) : bool :=
  match v with VDict _ => true | _ => false end.

(** [v.upper()] and [v.lower()]. *)
Definition py_upper (v : value) : res string :=
  match v with VStr s => Ret (upper s) | _ => Raise AttributeError end.

Definition py_lower (v : value) : res string :=
  match v with VStr s => Ret (lower s) | _ => Raise AttributeError end.

Definition as_str (v : value) : res string :=
  match v with VStr s => Ret s | _ => Raise TypeError end.

(** [sep.join(l)] for a Python list [l] already in hand. *)
Definition py_join_list (sep : string) (l : list value) : res string :=
  ss <- res_map as_str l ;; Ret (join sep ss).

(** [sep.join(v)] for any value [v]. *)
Definition py_join (sep : string) (v : value) : res string :=
  l <- iter v ;; py_join_list sep l.

(** ** The network *)

(** What one HTTP GET leads to in the three statements
    [requests.get(url)], [response.raise_for_status()], [response.json()].
    Each of the first three outcomes is a [requests.exceptions.RequestException]
    carrying a message ([JSONDecodeError] of [requests] is one). *)
Inductive response : Type :=
| ConnectionFailed (msg : string)
| BadStatus (msg : string)
| BadBody (msg : string)
| Json (body : value).

(** The remote service: the answer to the esearch request built from
    [(gene_name, variant)] and to the esummary request built from [var_id]. *)
Record server : Type := {
  esearch : string -> string -> response;
  esummary : value -> response
}.

Inductive call : Type :=
| ESearch (gene_name variant : string)
| ESummary (var_id : value).

Definition is_esummary (c : call) : bool :=
  match c with ESummary _ => true | ESearch _ _ => false end.

(** Computations that issue requests and may raise: the requests issued, in
    order, and the outcome. *)
Definition M (A : Type) : Type := (list call * res A)%type.

Definition ret {A} (a : A) : M A := ([], Ret a).

Definition lift {A} (c : res A) : M A := ([], c).

Definition bind {A B} (c : M A) (f : A -> M B) : M B :=
  match c with
  | (t, Ret a) => ((t ++ fst (f a))%list, snd (f a))
  | (t, Raise e) => (t, Raise e)
  end.

Notation "x <<- c ;; k" := (bind c (fun x => k))
  (at level 61, c at next level, right associativity).

Definition calls {A} (c : M A) : list call := fst c.
Definition outcome {A} (c : M A) : res A := snd c.

Definition request_esearch (srv : server) (gene_name variant : string)
  : M response :=
  ([ESearch gene_name variant], Ret (esearch srv gene_name variant)).

Definition request_esummary (srv : server) (var_id : value) : M response :=
  ([ESummary var_id], Ret (esummary srv var_id)).

(** The body of a [try] whose [except requests.exceptions.RequestException]
    catches the transport failure: [inl (str e)] when one is raised. *)
Definition fetch (r : response) : string + value :=
  match r with
  | ConnectionFailed msg | BadStatus msg | BadBody msg => inl msg
  | Json body => inr body
  end.

(** ** Code the two scripts have in common *)

(** [id_list = data['esearchresult'].get('idlist', [])], inside the [try]:
    a [KeyError] or [AttributeError] is not a [RequestException] and escapes. *)
Definition search (srv : server) (gene_name variant : string)
  : M (string + value) :=
  r <<- request_esearch srv gene_name variant ;;
  match fetch r with
  | inl msg => ret (inl msg)
  | inr data =>
      lift (esearchresult <- subscript data "esearchresult" ;;
            id_list <- get esearchresult (VStr "idlist") (VList []) ;;
            Ret (inr id_list))
  end.

(** [var_data = summary_data['result'].get(var_id, {})]. *)
Definition get_var_data (summary_data var_id : value) : res value :=
  result <- subscript summary_data "result" ;;
  get result var_id (VDict []).

(** The loop filling [gene_symbols]: a dict contributes
    [gene.get('symbol', '')], a string contributes itself, anything else
    nothing. *)
Fixpoint extract_gene_symbols (genes : list value) : list value :=
  match genes with
  | [] => []
  | gene :: genes' =>
      match gene with
      | VDict m =>
          dict_get m "symbol" (VStr EmptyString) :: extract_gene_symbols genes'
      | VStr s => VStr s :: extract_gene_symbols genes'
      | _ => extract_gene_symbols genes'
      end
  end.

(** [gene_symbols] as computed from [var_data]. *)
Definition gene_symbols_of (var_data : value) : res (list value) :=
  genes <- get var_data (VStr "genes") (VList []) ;;
  l <- iter genes ;;
  Ret (extract_gene_symbols l).

(** [gene_name.upper() in [g.upper() for g in gene_symbols]]. *)
Definition gene_in (gene_name : string) (gene_symbols : list value)
  : res bool :=
  ups <- res_map py_upper gene_symbols ;;
  Ret (in_strings (upper gene_name) ups).

(** [var_data.get('germline_classification', {}).get('description', 'N/A')]. *)
Definition acmg_score (var_data : value) : res value :=
  c <- get var_data (VStr "germline_classification") (VDict []) ;;
  get c (VStr "description") (VStr "N/A").

(** ** ClinVar_query_tool_single_variant.py *)

Module SingleVariant.

(** The locals the candidate loop assigns and the code after it reads. *)
Record locals : Type := {
  var_id : option value;
  var_data : option value
}.

Definition unbound : locals := {| var_id := None; var_data := None |}.

(** The [for var_id in id_list] loop (lines 55-67).  Its body only fetches:
    both [continue] statements end an iteration that has nothing more to do,
    and a failed fetch leaves [var_data] as the previous iteration set it. *)
Fixpoint candidate_loop (srv : server) (ids : list value) (st : locals)
  : M locals :=
  match ids with
  | [] => ret st
  | v :: ids' =>
      r <<- request_esummary srv v ;;
      match fetch r with
      | inl _ =>
          candidate_loop srv ids'
            {| var_id := Some v; var_data := var_data st |}
      | inr summary_data =>
          d <<- lift (get_var_data summary_data v) ;;
          candidate_loop srv ids' {| var_id := Some v; var_data := Some d |}
      end
  end.

(** Lines 83-86.  Line 84 assigns ['N/A'] to a local spelt [cannonical_spid],
    which nothing reads; [canonical_spdi] is assigned only inside the [if]. *)
Definition get_canonical_spdi (var_data : value) : res (option value) :=
  variation_set <- get var_data (VStr "variation_set") (VList []) ;;
  if truthy variation_set then
    first <- subscript0 variation_set ;;
    if is_dict first then
      c <- get first (VStr "canonical_spdi") (VStr "NA") ;;
      Ret (Some c)
    else Ret None
  else Ret None.

(** The code after the loop (lines 70-99). *)
Definition after_loop (gene_name : string) (st : locals) : res value :=
  d <- read_local (var_data st) ;;
  gene_symbols <- gene_symbols_of d ;;
  found <- gene_in gene_name gene_symbols ;;
  if negb found then
    names <- py_join_list ", " gene_symbols ;;
    Ret (VStr ("Variant found but not associated with gene " ++ gene_name
               ++ ". Found genes: " ++ names))
  else
    canonical_spdi <- get_canonical_spdi d ;;
    id <- read_local (var_id st) ;;
    accession <- get d (VStr "accession") (VStr "N/A") ;;
    title <- get d (VStr "title") (VStr "N/A") ;;
    spdi <- read_local canonical_spdi ;;
    names <- py_join_list ", " gene_symbols ;;
    chromosome <- get d (VStr "chr_sort") (VStr "N/A") ;;
    acmg <- acmg_score d ;;
    consequence <- get d (VStr "molecular_consequence_list") (VStr "N/A") ;;
    Ret (VDict [("Variation ID", id);
                ("Accession", accession);
                ("Title", title);
                ("Canonical spdi", spdi);
                ("Gene Symbol", VStr names);
                ("Chromosome", chromosome);
                ("ACMG score", acmg);
                ("Molecular Consequence", consequence)]).

Definition query_clinvar_for_specific_variant
  (srv : server) (gene_name variant : string) : M value :=
  s <<- search srv gene_name variant ;;
  match s with
  | inl msg => ret (VStr ("Error: Unable to search ClinVar. " ++ msg))
  | inr id_list =>
      if negb (truthy id_list) then
        ret (VStr ("No variants found for gene: " ++ gene_name))
      else
        ids <<- lift (iter id_list) ;;
        st <<- candidate_loop srv ids unbound ;;
        lift (after_loop gene_name st)
  end.

End SingleVariant.

(** ** Clinvar_query_tool_batch.py *)

Module Batch.

Definition failure (gene_name variant msg : string) : value :=
  VDict [("Gene", VStr gene_name); ("Variant", VStr variant);
         ("Error", VStr msg)].

(** Lines 100-103. *)
Definition get_canonical_spdi (var_data : value) : res value :=
  variation_set <- get var_data (VStr "variation_set") (VList []) ;;
  if truthy variation_set then
    first <- subscript0 variation_set ;;
    if is_dict first then get first (VStr "canonical_spdi") (VStr "N/A")
    else Ret (VStr "N/A")
  else Ret (VStr "N/A").

(** Lines 100-116: [canonical_spdi], then the dict that is returned. *)
Definition build_record (gene_name variant : string) (var_id d : value)
  (gene_symbols : list value) : res value :=
  canonical_spdi <- get_canonical_spdi d ;;
  accession <- get d (VStr "accession") (VStr "N/A") ;;
  title <- get d (VStr "title") (VStr "N/A") ;;
  names <- py_join_list ", " gene_symbols ;;
  chromosome <- get d (VStr "chr_sort") (VStr "N/A") ;;
  acmg <- acmg_score d ;;
  consequence <-
    (l <- get d (VStr "molecular_consequence_list") (VList [VStr "N/A"]) ;;
     py_join ", " l) ;;
  Ret (VDict [("Gene", VStr gene_name);
              ("Variant", VStr variant);
              ("Variation ID", var_id);
              ("Accession", accession);
              ("Title", title);
              ("Canonical spdi", canonical_spdi);
              ("Gene Symbol", VStr names);
              ("Chromosome", chromosome);
              ("ACMG score", acmg);
              ("Molecular Consequence", VStr consequence)]).

(** One iteration of the loop once the detail fetch has succeeded
    (lines 80-116): [None] is [continue], [Some r] is [return r]. *)
Definition examine (gene_name variant : string) (var_id summary_data : value)
  : res (option value) :=
  d <- get_var_data summary_data var_id ;;
  if negb (truthy d) then Ret None
  else
    gene_symbols <- gene_symbols_of d ;;
    found <- gene_in gene_name gene_symbols ;;
    if negb found then Ret None
    else
      title <- get d (VStr "title") (VStr EmptyString) ;;
      t <- py_lower title ;;
      if contains "del" t || contains "dup" t then Ret None
      else
        r <- build_record gene_name variant var_id d gene_symbols ;;
        Ret (Some r).

(** The [for var_id in id_list] loop and the [return] after it
    (lines 71-117). *)
Fixpoint candidate_loop (srv : server) (gene_name variant : string)
  (ids : list value) : M value :=
  match ids with
  | [] => ret (failure gene_name variant "No matching ClinVar record for gene")
  | v :: ids' =>
      r <<- request_esummary srv v ;;
      match fetch r with
      | inl _ => candidate_loop srv gene_name variant ids'
      | inr summary_data =>
          o <<- lift (examine gene_name variant v summary_data) ;;
          match o with
          | Some record => ret record
          | None => candidate_loop srv gene_name variant ids'
          end
      end
  end.

Definition query_clinvar_for_specific_variant
  (srv : server) (gene_name variant : string) : M value :=
  s <<- search srv gene_name variant ;;
  match s with
  | inl msg =>
      ret (failure gene_name variant ("Unable to search ClinVar: " ++ msg))
  | inr id_list =>
      if negb (truthy id_list) then
        ret (failure gene_name variant
               ("No variants found for gene: " ++ gene_name))
      else
        ids <<- lift (iter id_list) ;;
        candidate_loop srv gene_name variant ids
  end.

(** *** batch_query_from_excel *)

(** A cell of the data frame [pd.read_excel] gives: text, an integer, or
    the NaN that stands for an empty spreadsheet cell.  Other floats, whose
    text would need Python's float formatting, are not modelled. *)
Inductive cell : Type :=
| CStr (s : string)
| CNum (n : Z)
| CNaN.

(** [str(c)]. *)
Definition str (c : cell) : string :=
  match c with
  | CStr s => s
  | CNum n => NilZero.string_of_int (Z.to_int n)
  | CNaN => "nan"
  end.

(** A row of the data frame: its cells by column name. *)
Definition row : Type := list (string * cell).

(** [row.get(col, default)] with the empty string as default. *)
Fixpoint row_get (r : row) (col : string) : cell :=
  match r with
  | [] => CStr EmptyString
  | (k, c) :: r' => if String.eqb col k then c else row_get r' col
  end.

(** The [for _, row in df.iterrows()] loop (lines 126-135); [results] is the
    list being appended to.  Printing and sleeping are left out. *)
Fixpoint rows_loop (srv : server) (rows : list row) (results : list value)
  : M (list value) :=
  match rows with
  | [] => ret results
  | r :: rows' =>
      let gene := strip (str (row_get r "Gene")) in
      let variant := strip (str (row_get r "Variant")) in
      if String.eqb gene EmptyString || String.eqb variant EmptyString then
        rows_loop srv rows' results
      else
        result <<- query_clinvar_for_specific_variant srv gene variant ;;
        rows_loop srv rows' (results ++ [result])%list
  end.

(** The function, from the data frame read to the list of dicts the output
    data frame is built from (one output row per dict). *)
Definition batch_query_from_excel (srv : server) (df : list row)
  : M (list value) :=
  rows_loop srv df [].

End Batch.

(** ** Request URLs *)

(** Both scripts build the two URLs the same way (single-variant tool lines
    30-39 and 56, batch tool lines 52-57 and 72). *)

Definition base_url : string :=
  "https://eutils.ncbi.nlm.nih.gov/entrez/eutils/".

(** The characters [urllib.parse.quote] never quotes: letters, digits and
    [_.-~]. *)
Definition always_safe (c : ascii) : bool :=
  let n := nat_of_ascii c in
  ((65 <=? n)%nat && (n <=? 90)%nat) ||
  ((97 <=? n)%nat && (n <=? 122)%nat) ||
  ((48 <=? n)%nat && (n <=? 57)%nat) ||
  (n =? 95)%nat || (n =? 46)%nat || (n =? 45)%nat || (n =? 126)%nat.

(** With the default [safe='/'], the slash is left alone too. *)
Definition unquoted (c : ascii) : bool :=
  always_safe c || (nat_of_ascii c =? 47)%nat.

(** An upper-case hexadecimal digit. *)
Definition hex_digit (n : nat) : ascii :=
  if (n <? 10)%nat then ascii_of_nat (48 + n) else ascii_of_nat (55 + n).

(** The ['%XX'] escape of a byte. *)
Definition percent (c : ascii) : string :=
  let n := nat_of_ascii c in
  String "%" (String (hex_digit (n / 16))
                (String (hex_digit (n mod 16)) EmptyString)).

Definition quote_char (c : ascii) : string :=
  if unquoted c then String c EmptyString else percent c.

(** [urllib.parse.quote(s)] on the bytes of [s]. *)
Fixpoint quote (s : string) : string :=
  match s with
  | EmptyString => EmptyString
  | String c s' => quote_char c ++ quote s'
  end.

(** [f"{gene_name}[gene] AND {variant}[Variation Name]"]. *)
Definition search_term (gene_name variant : string) : string :=
  gene_name ++ "[gene] AND " ++ variant ++ "[Variation Name]".

Definition esearch_url (gene_name variant : string) : string :=
  base_url ++ "esearch.fcgi?db=clinvar&term="
    ++ quote (search_term gene_name variant) ++ "&retmode=json".

(** The esummary URL for an identifier whose text is [var_id]; the
    identifier goes in as it is. *)
Definition esummary_url (var_id : string) : string :=
  base_url ++ "esummary.fcgi?db=clinvar&id=" ++ var_id ++ "&retmode=json".

(** ** Vocabulary of the statements *)

(** The transport call behind [r] fails with message [msg]: a network error,
    a non-success HTTP status, or a body that is not JSON. *)
Definition transport_failure (r : response) (msg : string) : Prop :=
  r = ConnectionFailed msg \/ r = BadStatus msg \/ r = BadBody msg.

(** A returned value is a variant record when it is a dict with a
    "Variation ID" (the failures are strings in the single-variant tool and
    dicts with just "Gene", "Variant" and "Error" in the batch tool). *)
Definition is_record (r : value) : bool :=
  match r with
  | VDict m =>
      match lookup "Variation ID" m with
      | Some _ => true
      | None => false
      end
  | _ => false
  end.

(** [syms] are the gene symbols extracted from the detail payload [d] of
    candidate [v]. *)
Definition symbols_of_payload (d : value) (syms : list string) : Prop :=
  exists gs, gene_symbols_of d = Ret gs /\ res_map as_str gs = Ret syms.

(** The detail fetch of candidate [v] succeeds with payload [d]. *)
Definition payload (srv : server) (v d : value) : Prop :=
  exists summary_data,
    fetch (esummary srv v) = inr summary_data /\
    get_var_data summary_data v = Ret d.

(** The search for [(gene_name, variant)] succeeds and lists the
    candidates [ids]. *)
Definition candidates (srv : server) (gene_name variant : string)
  (ids : list value) : Prop :=
  exists id_list,
    outcome (search srv gene_name variant) = Ret (inr id_list) /\
    truthy id_list = true /\
    iter id_list = Ret ids.

(** Why the batch tool passes over candidate [v] for [gene_name]: its detail
    fetch fails, its payload is empty, its gene symbols do not include the
    gene, or they do and its title contains "del" or "dup". *)
Inductive skipped (srv : server) (gene_name : string) (v : value) : Prop :=
| skip_fetch_failed (msg : string) :
    fetch (esummary srv v) = inl msg ->
    skipped srv gene_name v
| skip_empty_payload (d : value) :
    payload srv v d ->
    truthy d = false ->
    skipped srv gene_name v
| skip_other_gene (d : value) (syms : list string) :
    payload srv v d ->
    truthy d = true ->
    symbols_of_payload d syms ->
    in_strings (upper gene_name) (map upper syms) = false ->
    skipped srv gene_name v
| skip_del_dup (d : value) (syms : list string) (title : string) :
    payload srv v d ->
    truthy d = true ->
    symbols_of_payload d syms ->
    in_strings (upper gene_name) (map upper syms) = true ->
    get d (VStr "title") (VStr EmptyString) = Ret (VStr title) ->
    contains "del" (lower title) || contains "dup" (lower title) = true ->
    skipped srv gene_name v.

(** Candidate [v] passes every test of the batch tool: its detail fetch
    succeeds with the non-empty payload [d], the symbols [gs] extracted from
    [d] include [gene_name] case-insensitively, and its title contains
    neither "del" nor "dup". *)
Definition accepted (srv : server) (gene_name : string) (v d : value)
  (gs : list value) : Prop :=
  payload srv v d /\
  truthy d = true /\
  gene_symbols_of d = Ret gs /\
  (exists syms,
     res_map as_str gs = Ret syms /\
     in_strings (upper gene_name) (map upper syms) = true) /\
  (exists title,
     get d (VStr "title") (VStr EmptyString) = Ret (VStr title) /\
     contains "del" (lower title) = false /\
     contains "dup" (lower title) = false).

(** The detail fetch of candidate [v] fails, so that the loop moves on. *)
Definition fetch_fails (srv : server) (v : value) : Prop :=
  exists msg, fetch (esummary srv v) = inl msg.

(** The loop of the single-variant tool gets past candidate [v]: its detail
    fetch fails or gives a payload. *)
Definition looked_up (srv : server) (v : value) : Prop :=
  fetch_fails srv v \/ exists d, payload srv v d.

(** The reading of "computed only from the detail data of the last
    candidate": two servers that list the same candidates, more than one, and
    answer the last candidate's detail request alike make the single-variant
    tool end alike. *)
Definition decided_by_last_candidate (srvA srvB : server)
  (gene_name variant : string) : Prop :=
  forall (ids : list value) (v : value),
    ids <> [] ->
    candidates srvA gene_name variant (ids ++ [v]) ->
    candidates srvB gene_name variant (ids ++ [v]) ->
    esummary srvA v = esummary srvB v ->
    outcome (SingleVariant.query_clinvar_for_specific_variant
               srvA gene_name variant)
    = outcome (SingleVariant.query_clinvar_for_specific_variant
                 srvB gene_name variant).

(** The message of a failure value: the string itself in the
    single-variant tool, the "Error" field in the batch tool. *)
Definition failure_message (r : value) : option string :=
  match r with
  | VStr msg => Some msg
  | VDict m =>
      match lookup "Error" m with
      | Some (VStr msg) => Some msg
      | _ => None
      end
  | _ => None
  end.

(** The reading of "the failure reports the union of the gene symbols found
    across all examined candidates": whenever candidates exist and [query]
    returns something that is not a record, it is a failure whose message
    contains every symbol extracted from every candidate's payload. *)
Definition reports_all_symbols (query : server -> string -> string -> M value)
  : Prop :=
  forall (srv : server) (gene_name variant : string) (ids : list value)
         (r : value),
    candidates srv gene_name variant ids ->
    outcome (query srv gene_name variant) = Ret r ->
    is_record r = false ->
    exists msg,
      failure_message r = Some msg /\
      forall (v d : value) (syms : list string) (s : string),
        In v ids -> payload srv v d -> symbols_of_payload d syms ->
        In s syms -> contains s msg = true.

(** The gene and variant the batch driver reads from a row, and its test
    for a row to skip: either text is empty once stripped. *)
Definition gene_of (r : Batch.row) : string :=
  strip (Batch.str (Batch.row_get r "Gene")).

Definition variant_of (r : Batch.row) : string :=
  strip (Batch.str (Batch.row_get r "Variant")).

Definition blank (r : Batch.row) : bool :=
  String.eqb (gene_of r) EmptyString || String.eqb (variant_of r) EmptyString.

Definition non_blank (r : Batch.row) : bool := negb (blank r).

(** The keys of a returned dict, in order: the columns it gives the output
    table. *)
Definition keys (r : value) : list string :=
  match r with
  | VDict m => map fst m
  | _ => []
  end.

Definition record_keys : list string :=
  ["Gene"; "Variant"; "Variation ID"; "Accession"; "Title"; "Canonical spdi";
   "Gene Symbol"; "Chromosome"; "ACMG score"; "Molecular Consequence"].

(** The fields of a record of the single-variant tool, and the fields the
    records of the two tools have in common apart from the consequences. *)
Definition single_record_keys : list string :=
  ["Variation ID"; "Accession"; "Title"; "Canonical spdi"; "Gene Symbol";
   "Chromosome"; "ACMG score"; "Molecular Consequence"].

Definition shared_keys : list string :=
  ["Variation ID"; "Accession"; "Title"; "Canonical spdi"; "Gene Symbol";
   "Chromosome"; "ACMG score"].

Definition is_esearch (c : call) : bool := negb (is_esummary c).

(** Text made of ASCII characters only. *)
Definition ascii_text (s : string) : bool :=
  forallb (fun c => (nat_of_ascii c <? 128)%nat) (list_ascii_of_string s).


(** Whether the character [c] occurs in [s]. *)
Fixpoint occurs (c : ascii) (s : string) : bool :=
  match s with
  | EmptyString => false
  | String c' s' => Ascii.eqb c c' || occurs c s'
  end.

(** The value of a hexadecimal digit, and the byte a ['%XX'] escape stands
    for (used to show that [quote] loses nothing). *)
Definition hex_value (c : ascii) : nat :=
  let n := nat_of_ascii c in
  if (n <? 58)%nat then n - 48 else n - 55.

Definition escaped_byte (hi lo : ascii) : ascii :=
  ascii_of_nat (16 * hex_value hi + hex_value lo).

(** Documents of the shape the scripts expect.  A gene entry is a dict
    whose symbol, if any, is a string, or a bare string, or anything else
    (which is ignored); in a non-empty payload the genes and the variation set
    are lists, the title is a string, the classification is a dict and the
    consequences are a list of strings, each only if the key is there. *)
Definition well_formed_gene (gene : value) : Prop :=
  match gene with
  | VDict m => exists s, dict_get m "symbol" (VStr EmptyString) = VStr s
  | _ => True
  end.

Definition well_formed_payload (d : value) : Prop :=
  truthy d = false \/
  exists m genes title vs cls consequences,
    d = VDict m /\
    dict_get m "genes" (VList []) = VList genes /\
    Forall well_formed_gene genes /\
    dict_get m "title" (VStr EmptyString) = VStr title /\
    dict_get m "variation_set" (VList []) = VList vs /\
    dict_get m "germline_classification" (VDict []) = VDict cls /\
    dict_get m "molecular_consequence_list" (VList [VStr "N/A"])
      = VList (map VStr consequences).

(** The detail request for identifier [id] fails in transport, or answers a
    dict whose "result" is a dict holding a well-formed payload for [id]
    (or none). *)
Definition well_formed_detail (srv : server) (id : string) : Prop :=
  fetch_fails srv (VStr id) \/
  exists doc result,
    esummary srv (VStr id) = Json (VDict doc) /\
    lookup "result" doc = Some (VDict result) /\
    well_formed_payload (dict_get result id (VDict [])).

(** The search answers a dict whose "esearchresult" is a dict listing the
    identifiers [ids], all strings. *)
Definition well_formed_search (srv : server) (gene_name variant : string)
  (ids : list string) : Prop :=
  exists doc result,
    esearch srv gene_name variant = Json (VDict doc) /\
    lookup "esearchresult" doc = Some (VDict result) /\
    dict_get result "idlist" (VList []) = VList (map VStr ids).

(** ** Servers for worked examples *)

(** The esearch document listing the identifiers [ids]. *)
Definition esearch_doc (ids : list value) : value :=
  VDict [("header", VDict [("type", VStr "esearch")]);
         ("esearchresult", VDict [("count", VStr "n"); ("idlist", VList ids)])].

(** The esummary document for identifier [id] with detail fields [fields]. *)
Definition esummary_doc (id : string) (fields : list (string * value))
  : response :=
  Json (VDict [("header", VDict [("type", VStr "esummary")]);
               ("result", VDict [("uids", VList [VStr id]);
                                 (id, VDict fields)])]).

Fixpoint find_response (id : string) (table : list (string * response))
  : response :=
  match table with
  | [] => ConnectionFailed "connection refused"
  | (k, r) :: table' => if String.eqb id k then r else find_response id table'
  end.

(** A server whose search lists [ids] and whose detail answers are looked up
    in [table]. *)
Definition make_server (ids : list value) (table : list (string * response))
  : server :=
  {| esearch := fun _ _ => Json (esearch_doc ids);
     esummary := fun v =>
       match v with
       | VStr id => find_response id table
       | _ => BadStatus "400 Client Error"
       end |}.

Definition genes_of (symbols : list string) : value :=
  VList (map (fun s => VDict [("symbol", VStr s); ("geneid", VStr "0")])
             symbols).

Definition spdi_set (spdi : string) : value :=
  VList [VDict [("measure_id", VStr "0"); ("canonical_spdi", VStr spdi)]].

(** One identifier, whose detail names CHD8 and carries every field. *)
Definition chd8_fields : list (string * value) :=
  [("uid", VStr "1"); ("accession", VStr "VCV000000001");
   ("title", VStr "NM_001170629.2(CHD8):c.4738C>T (p.Arg1580Trp)");
   ("genes", genes_of ["CHD8"]);
   ("variation_set", spdi_set "NC_000014.9:21385870:G:A");
   ("chr_sort", VStr "14");
   ("germline_classification", VDict [("description", VStr "Pathogenic")]);
   ("molecular_consequence_list", VList [VStr "missense variant"])].

Definition chd8_server : server :=
  make_server [VStr "1"] [("1", esummary_doc "1" chd8_fields)].

(** The record the batch tool builds from [chd8_fields] for a request
    spelt [gene_name]. *)
Definition chd8_batch_record (gene_name : string) : value :=
  VDict [("Gene", VStr gene_name);
         ("Variant", VStr "p.Arg1580Trp");
         ("Variation ID", VStr "1");
         ("Accession", VStr "VCV000000001");
         ("Title", VStr "NM_001170629.2(CHD8):c.4738C>T (p.Arg1580Trp)");
         ("Canonical spdi", VStr "NC_000014.9:21385870:G:A");
         ("Gene Symbol", VStr "CHD8");
         ("Chromosome", VStr "14");
         ("ACMG score", VStr "Pathogenic");
         ("Molecular Consequence", VStr "missense variant")].

(** Five candidates for ASXL1: a failed fetch, a record of another gene, a
    deletion in ASXL1, and two substitutions in ASXL1. *)
Definition asxl1_fields (id title : string) : list (string * value) :=
  [("uid", VStr id); ("accession", VStr ("VCV00000000" ++ id));
   ("title", VStr title);
   ("genes", genes_of ["ASXL1"]);
   ("variation_set", spdi_set ("NC_000020.11:3243480" ++ id ++ ":G:T"));
   ("chr_sort", VStr "20")].

Definition asxl1_server : server :=
  make_server [VStr "1"; VStr "2"; VStr "3"; VStr "4"; VStr "5"]
    [("1", BadStatus "429 Client Error: Too Many Requests");
     ("2", esummary_doc "2" [("title", VStr "NM_000546.6(TP53):c.1936G>T");
                              ("genes", genes_of ["TP53"])]);
     ("3", esummary_doc "3"
             (asxl1_fields "3" "NM_015338.6(ASXL1):c.1934del (p.Gly645fs)"));
     ("4", esummary_doc "4"
             (asxl1_fields "4" "NM_015338.6(ASXL1):c.1936G>T (p.Gly646Trp)"));
     ("5", esummary_doc "5"
             (asxl1_fields "5" "NM_015338.6(ASXL1):c.1937G>A (p.Gly646Glu)"))].

Definition asxl1_record : value :=
  VDict [("Gene", VStr "asxl1");
         ("Variant", VStr "p.Gly646Trp");
         ("Variation ID", VStr "4");
         ("Accession", VStr "VCV000000004");
         ("Title", VStr "NM_015338.6(ASXL1):c.1936G>T (p.Gly646Trp)");
         ("Canonical spdi", VStr "NC_000020.11:32434804:G:T");
         ("Gene Symbol", VStr "ASXL1");
         ("Chromosome", VStr "20");
         ("ACMG score", VStr "N/A");
         ("Molecular Consequence", VStr "N/A")].

Definition tp53_fields : list (string * value) :=
  [("uid", VStr "2"); ("accession", VStr "VCV000000002");
   ("title", VStr "NM_000546.6(TP53):c.4738C>T (p.Arg1580Trp)");
   ("genes", genes_of ["TP53"]);
   ("variation_set", spdi_set "NC_000017.11:7670000:G:A")].

(** Two candidates; the first has the detail [fields], the fetch of the
    second fails. *)
Definition second_down_server (fields : list (string * value)) : server :=
  make_server [VStr "1"; VStr "2"]
    [("1", esummary_doc "1" fields); ("2", BadStatus "502 Server Error")].

(** Three candidates: CHD8, then TP53, then a failed fetch. *)
Definition chd8_tp53_down_server : server :=
  make_server [VStr "1"; VStr "2"; VStr "3"]
    [("1", esummary_doc "1" chd8_fields);
     ("2", esummary_doc "2" tp53_fields);
     ("3", BadStatus "502 Server Error")].

(** Two candidates, of BRCA1 and of TP53. *)
Definition brca1_tp53_server : server :=
  make_server [VStr "1"; VStr "2"]
    [("1", esummary_doc "1" [("accession", VStr "VCV000000001");
                              ("genes", genes_of ["BRCA1"])]);
     ("2", esummary_doc "2" tp53_fields)].

(** One identifier whose detail lists CHD8 and a gene entry without a
    symbol. *)
Definition unnamed_gene_server : server :=
  make_server [VStr "1"]
    [("1", esummary_doc "1"
             [("title", VStr "NM_001170629.2(CHD8):c.4738C>T (p.Arg1580Trp)");
              ("genes", VList [VDict [("symbol", VStr "CHD8")];
                               VDict [("geneid", VStr "57680")]]);
              ("variation_set", spdi_set "NC_000014.9:21385870:G:A")])].

(** A table of two filled rows around a row of blanks, and the same table
    with the middle cells read as NaN. *)
Definition filled_row (gene variant : string) : Batch.row :=
  [("Gene", Batch.CStr gene); ("Variant", Batch.CStr variant)].

Definition table_with_blank_row : list Batch.row :=
  [filled_row "CHD8" "p.Arg1580Trp";
   filled_row "  " " ";
   filled_row " chd8 " "p.Arg1580Trp "].

Definition table_with_nan_row : list Batch.row :=
  [filled_row "CHD8" "p.Arg1580Trp";
   [("Gene", Batch.CNaN); ("Variant", Batch.CNaN)];
   filled_row " chd8 " "p.Arg1580Trp "].

(** The search itself cannot be reached. *)
Definition unreachable_server : server :=
  {| esearch := fun _ _ => ConnectionFailed "Read timed out.";
     esummary := fun _ => ConnectionFailed "Read timed out." |}.

(** The search finds nothing. *)
Definition empty_server : server := make_server [] [].

(** One identifier whose detail fetch fails. *)
Definition detail_down_server : server :=
  make_server [VStr "1"] [("1", BadStatus "502 Server Error")].

(** One identifier whose detail names CHD8 but has no variation set. *)
Definition no_variation_set_server : server :=
  make_server [VStr "1"]
    [("1", esummary_doc "1"
             [("accession", VStr "VCV000000001");
              ("title", VStr "NM_001170629.2(CHD8):c.4738C>T (p.Arg1580Trp)");
              ("genes", genes_of ["CHD8"])])].

(** One identifier whose detail names CHD8 and whose variation set has a
    structured first entry without a canonical descriptor. *)
Definition no_spdi_server : server :=
  make_server [VStr "1"]
    [("1", esummary_doc "1"
             [("accession", VStr "VCV000000001");
              ("title", VStr "NM_001170629.2(CHD8):c.4738C>T (p.Arg1580Trp)");
              ("genes", genes_of ["CHD8"]);
              ("variation_set", VList [VDict [("measure_id", VStr "0")]])])].

(** A server that answers the search for TP53 with an error document and
    every other search like [chd8_server]. *)
Definition error_document_server : server :=
  {| esearch := fun gene_name variant =>
       if String.eqb gene_name "TP53"
       then Json (VDict [("error", VStr "unavailable")])
       else esearch chd8_server gene_name variant;
     esummary := esummary chd8_server |}.

Definition table_with_failing_row : list Batch.row :=
  [filled_row "CHD8" "p.Arg1580Trp";
   filled_row "TP53" "p.Arg175His";
   filled_row "chd8" "p.Arg1580Trp"].

(** ** Basic facts *)

Lemma outcome_bind {A B} (c : M A) (f : A -> M B) :
  outcome (bind c f) =
  match outcome c with
  | Ret a => outcome (f a)
  | Raise e => Raise e
  end.
Proof. destruct c as [t [a|e]]; reflexivity. Qed.

Lemma calls_bind {A B} (c : M A) (f : A -> M B) :
  calls (bind c f) =
  (calls c ++ match outcome c with
              | Ret a => calls (f a)
              | Raise _ => []
              end)%list.
Proof.
  destruct c as [t [a|e]]; unfold calls; simpl; trivial.
  now rewrite app_nil_r.
Qed.

Lemma outcome_lift {A} (c : res A) : outcome (lift c) = c.
Proof. reflexivity. Qed.

Lemma outcome_ret {A} (a : A) : outcome (ret a) = Ret a.
Proof. reflexivity. Qed.

Lemma search_calls (srv : server) (gene_name variant : string) :
  calls (search srv gene_name variant) = [ESearch gene_name variant].
Proof.
  unfold search, request_esearch, bind, calls; simpl.
  destruct (fetch _); reflexivity.
Qed.

Lemma search_transport_failure srv gene_name variant msg :
  transport_failure (esearch srv gene_name variant) msg ->
  outcome (search srv gene_name variant) = Ret (inl msg).
Proof.
  unfold search, request_esearch, bind, outcome; simpl.
  intros [H | [H | H]]; rewrite H; reflexivity.
Qed.

Lemma in_strings_In (s : string) (l : list string) :
  in_strings s l = true <-> In s l.
Proof.
  unfold in_strings. rewrite existsb_exists. split.
  - intros [x [Hin Heq]]. apply String.eqb_eq in Heq. now subst.
  - intros Hin. exists s. split; trivial. apply String.eqb_refl.
Qed.

(** When every symbol has an upper-case form, every symbol is a string. *)
Lemma res_map_upper_strings (gs : list value) (ups : list string) :
  res_map py_upper gs = Ret ups ->
  exists syms, res_map as_str gs = Ret syms /\ ups = map upper syms.
Proof.
  revert ups. induction gs as [| g gs IH]; simpl; intros ups H.
  - inversion H. now exists [].
  - destruct g; simpl in H; try discriminate.
    destruct (res_map py_upper gs) as [ups' |] eqn:E; simpl in H; try discriminate.
    inversion H; subst. destruct (IH ups' eq_refl) as [syms [Hs Hu]].
    exists (s :: syms). simpl. rewrite Hs. simpl. now rewrite Hu.
Qed.

(** ** The search phase *)

(** C8.  When the search transport call fails (network error, non-success
    status, or a body that is not JSON), both tools return their search-error
    value carrying the cause's message, the only request issued is the search
    itself (no esummary call), and nothing is raised. *)
Theorem search_error_is_returned
  (srv : server) (gene_name variant msg : string) :
  transport_failure (esearch srv gene_name variant) msg ->
  SingleVariant.query_clinvar_for_specific_variant srv gene_name variant
    = ([ESearch gene_name variant],
       Ret (VStr ("Error: Unable to search ClinVar. " ++ msg))) /\
  Batch.query_clinvar_for_specific_variant srv gene_name variant
    = ([ESearch gene_name variant],
       Ret (VDict [("Gene", VStr gene_name); ("Variant", VStr variant);
                   ("Error", VStr ("Unable to search ClinVar: " ++ msg))])).
Proof.
  intros H.
  unfold SingleVariant.query_clinvar_for_specific_variant,
    Batch.query_clinvar_for_specific_variant, search, request_esearch.
  destruct H as [H | [H | H]]; simpl; rewrite H; simpl; split; reflexivity.
Qed.

Lemma search_error_is_returned_witness :
  SingleVariant.query_clinvar_for_specific_variant unreachable_server
      "CHD8" "p.Arg1580Trp"
    = ([ESearch "CHD8" "p.Arg1580Trp"],
       Ret (VStr "Error: Unable to search ClinVar. Read timed out.")) /\
  Batch.query_clinvar_for_specific_variant unreachable_server
      "CHD8" "p.Arg1580Trp"
    = ([ESearch "CHD8" "p.Arg1580Trp"],
       Ret (VDict [("Gene", VStr "CHD8"); ("Variant", VStr "p.Arg1580Trp");
                   ("Error", VStr "Unable to search ClinVar: Read timed out.")])).
Proof.
  apply (search_error_is_returned unreachable_server "CHD8" "p.Arg1580Trp"
           "Read timed out.").
  left. reflexivity.
Defined.

(** C7.  When the search succeeds with an empty identifier list, both tools
    return their no-variants-found value and issue no esummary call: the
    search is the only request. *)
Theorem no_candidates_no_detail_fetch
  (srv : server) (gene_name variant : string) :
  outcome (search srv gene_name variant) = Ret (inr (VList [])) ->
  SingleVariant.query_clinvar_for_specific_variant srv gene_name variant
    = ([ESearch gene_name variant],
       Ret (VStr ("No variants found for gene: " ++ gene_name))) /\
  Batch.query_clinvar_for_specific_variant srv gene_name variant
    = ([ESearch gene_name variant],
       Ret (VDict [("Gene", VStr gene_name); ("Variant", VStr variant);
                   ("Error", VStr ("No variants found for gene: " ++ gene_name))])) /\
  existsb is_esummary
    (calls (SingleVariant.query_clinvar_for_specific_variant srv gene_name variant)
     ++ calls (Batch.query_clinvar_for_specific_variant srv gene_name variant))
    = false.
Proof.
  intros H.
  assert (Hs : search srv gene_name variant
               = ([ESearch gene_name variant], Ret (inr (VList [])))).
  { pose proof (search_calls srv gene_name variant) as Hc.
    destruct (search srv gene_name variant) as [t o].
    unfold calls, outcome in *; simpl in *. now subst. }
  unfold SingleVariant.query_clinvar_for_specific_variant,
    Batch.query_clinvar_for_specific_variant.
  rewrite Hs. simpl. repeat split; reflexivity.
Qed.

Lemma no_candidates_no_detail_fetch_witness :
  SingleVariant.query_clinvar_for_specific_variant empty_server "CHD8" "p.X"
    = ([ESearch "CHD8" "p.X"], Ret (VStr "No variants found for gene: CHD8")) /\
  Batch.query_clinvar_for_specific_variant empty_server "CHD8" "p.X"
    = ([ESearch "CHD8" "p.X"],
       Ret (VDict [("Gene", VStr "CHD8"); ("Variant", VStr "p.X");
                   ("Error", VStr "No variants found for gene: CHD8")])) /\
  existsb is_esummary
    (calls (SingleVariant.query_clinvar_for_specific_variant empty_server "CHD8" "p.X")
     ++ calls (Batch.query_clinvar_for_specific_variant empty_server "CHD8" "p.X"))
    = false.
Proof.
  apply (no_candidates_no_detail_fetch empty_server "CHD8" "p.X").
  reflexivity.
Defined.

(** ** Gene matching *)

(** Takes apart a hypothesis saying that a chain of binds returned. *)
Ltac bind_inv H :=
  repeat match type of H with
    | res_bind (Ret _) _ = Ret _ => unfold res_bind at 1 in H
    | res_bind ?c _ = Ret _ =>
        let E := fresh "E" in
        destruct c eqn:E; simpl in H; [| discriminate H]
    | (if ?b then _ else _) = Ret _ =>
        let E := fresh "E" in
        destruct b eqn:E; simpl in H
    end.

Lemma gene_in_symbols (gene_name : string) (gs : list value) :
  gene_in gene_name gs = Ret true ->
  exists syms,
    res_map as_str gs = Ret syms /\
    in_strings (upper gene_name) (map upper syms) = true.
Proof.
  unfold gene_in. intros H. bind_inv H.
  destruct (res_map_upper_strings _ _ E) as [syms [Hs Hu]].
  exists syms. split; trivial. inversion H. now subst.
Qed.

Lemma single_after_loop_record (gene_name : string)
  (st : SingleVariant.locals) (r : value) :
  SingleVariant.after_loop gene_name st = Ret r ->
  is_record r = true ->
  exists d syms,
    SingleVariant.var_data st = Some d /\
    symbols_of_payload d syms /\
    get r (VStr "Gene Symbol") VNone = Ret (VStr (join ", " syms)) /\
    in_strings (upper gene_name) (map upper syms) = true.
Proof.
  unfold SingleVariant.after_loop. intros H Hr.
  destruct (SingleVariant.var_data st) as [d |]; simpl in H; [| discriminate].
  destruct (gene_symbols_of d) as [gs |] eqn:Egs; simpl in H; [| discriminate].
  destruct (gene_in gene_name gs) as [[|] |] eqn:Ein; simpl in H;
    try discriminate.
  - destruct (gene_in_symbols _ _ Ein) as [syms [Hs Hin]].
    assert (Hj : py_join_list ", " gs = Ret (join ", " syms))
      by (unfold py_join_list; rewrite Hs; reflexivity).
    rewrite Hj in H. bind_inv H. inversion H; subst r.
    exists d, syms. repeat split; trivial.
    exists gs. now split.
  - bind_inv H. inversion H; subst r. discriminate Hr.
Qed.

Lemma single_loop_var_data (srv : server) (ids : list value) :
  forall st st' d,
    outcome (SingleVariant.candidate_loop srv ids st) = Ret st' ->
    SingleVariant.var_data st' = Some d ->
    SingleVariant.var_data st = Some d \/
    exists v, In v ids /\ payload srv v d.
Proof.
  induction ids as [| v ids IH]; intros st st' d H Hd;
    cbn [SingleVariant.candidate_loop] in H.
  - inversion H; subst. now left.
  - rewrite outcome_bind in H. cbn [request_esummary outcome snd] in H.
    destruct (fetch (esummary srv v)) as [msg | summary_data] eqn:Ef.
    + destruct (IH _ _ _ H Hd) as [Hst | [u [Hu Hp]]].
      * now left.
      * right. exists u. split; [now right | trivial].
    + rewrite outcome_bind, outcome_lift in H.
      destruct (get_var_data summary_data v) as [d0 |] eqn:Eg; [| discriminate].
      destruct (IH _ _ _ H Hd) as [Hst | [u [Hu Hp]]].
      * right. exists v. split; [now left |].
        simpl in Hst. inversion Hst; subst. now exists summary_data.
      * right. exists u. split; [now right | trivial].
Qed.

Lemma batch_examine_record (gene_name variant : string)
  (v summary_data r : value) :
  Batch.examine gene_name variant v summary_data = Ret (Some r) ->
  exists d syms,
    get_var_data summary_data v = Ret d /\
    truthy d = true /\
    symbols_of_payload d syms /\
    get r (VStr "Gene Symbol") VNone = Ret (VStr (join ", " syms)) /\
    in_strings (upper gene_name) (map upper syms) = true.
Proof.
  unfold Batch.examine. intros H.
  destruct (get_var_data summary_data v) as [d |]; simpl in H; [| discriminate].
  destruct (truthy d) eqn:Et; simpl in H; [| discriminate].
  destruct (gene_symbols_of d) as [gs |] eqn:Egs; simpl in H; [| discriminate].
  destruct (gene_in gene_name gs) as [[|] |] eqn:Ein; simpl in H;
    try discriminate.
  destruct (gene_in_symbols _ _ Ein) as [syms [Hs Hin]].
  assert (Hj : py_join_list ", " gs = Ret (join ", " syms))
    by (unfold py_join_list; rewrite Hs; reflexivity).
  unfold Batch.build_record in H. rewrite Hj in H.
  bind_inv H; try discriminate.
  inversion H; subst r.
  match goal with
  | E : res_bind _ _ = Ret _ |- _ => bind_inv E; inversion E; subst
  end.
  exists d, syms. repeat split; trivial.
  exists gs. now split.
Qed.

Lemma batch_loop_record (srv : server) (gene_name variant : string)
  (ids : list value) (r : value) :
  outcome (Batch.candidate_loop srv gene_name variant ids) = Ret r ->
  is_record r = true ->
  exists v d syms,
    In v ids /\ payload srv v d /\
    symbols_of_payload d syms /\
    get r (VStr "Gene Symbol") VNone = Ret (VStr (join ", " syms)) /\
    in_strings (upper gene_name) (map upper syms) = true.
Proof.
  induction ids as [| v ids IH]; intros H Hr;
    cbn [Batch.candidate_loop] in H.
  - inversion H; subst. discriminate Hr.
  - rewrite outcome_bind in H. cbn [request_esummary outcome snd] in H.
    assert (Htl : outcome (Batch.candidate_loop srv gene_name variant ids) = Ret r ->
                  exists v0 d syms,
                    In v0 (v :: ids) /\ payload srv v0 d /\
                    symbols_of_payload d syms /\
                    get r (VStr "Gene Symbol") VNone = Ret (VStr (join ", " syms)) /\
                    in_strings (upper gene_name) (map upper syms) = true).
    { intros H'. destruct (IH H' Hr) as [u [d [syms [Hu Hrest]]]].
      exists u, d, syms. split; [now right | trivial]. }
    destruct (fetch (esummary srv v)) as [msg | summary_data] eqn:Ef; auto.
    rewrite outcome_bind, outcome_lift in H.
    destruct (Batch.examine gene_name variant v summary_data) as [[r' |] |] eqn:Ee;
      try discriminate; auto.
    simpl in H. inversion H; subst r'.
    destruct (batch_examine_record _ _ _ _ _ Ee) as [d [syms [Hd [_ Hrest]]]].
    exists v, d, syms. split; [now left |]. split; trivial.
    now exists summary_data.
Qed.

(** C1.  Whenever either tool returns a variant record, the record's
    "Gene Symbol" field is the comma-joined list of the gene symbols extracted
    from the detail payload of one of the candidates the search returned, and
    that list contains the requested gene when both are upper-cased.  So no
    record is returned for a gene that is not among the candidate's extracted
    symbols. *)
Theorem record_contains_requested_gene
  (srv : server) (gene_name variant : string) (r : value) :
  outcome (SingleVariant.query_clinvar_for_specific_variant srv gene_name variant)
    = Ret r \/
  outcome (Batch.query_clinvar_for_specific_variant srv gene_name variant)
    = Ret r ->
  is_record r = true ->
  exists ids v d syms,
    candidates srv gene_name variant ids /\
    In v ids /\
    payload srv v d /\
    symbols_of_payload d syms /\
    get r (VStr "Gene Symbol") VNone = Ret (VStr (join ", " syms)) /\
    in_strings (upper gene_name) (map upper syms) = true.
Proof.
  intros H Hr.
  unfold SingleVariant.query_clinvar_for_specific_variant,
    Batch.query_clinvar_for_specific_variant in H.
  rewrite !outcome_bind in H.
  destruct (outcome (search srv gene_name variant)) as [[msg | id_list] |] eqn:Es.
  - destruct H as [H | H]; inversion H; subst r; discriminate Hr.
  - destruct (truthy id_list) eqn:Et; cbn [negb] in H.
    2:{ destruct H as [H | H]; inversion H; subst r; discriminate Hr. }
    rewrite !outcome_bind, !outcome_lift in H.
    destruct (iter id_list) as [ids |] eqn:Ei.
    2:{ destruct H as [H | H]; discriminate H. }
    assert (Hc : candidates srv gene_name variant ids)
      by (exists id_list; auto).
    destruct H as [H | H].
    + rewrite outcome_bind in H.
      destruct (outcome (SingleVariant.candidate_loop srv ids SingleVariant.unbound))
        as [st |] eqn:El; [| discriminate].
      rewrite outcome_lift in H.
      destruct (single_after_loop_record _ _ _ H Hr)
        as [d [syms [Hd [Hsy [Hf Hin]]]]].
      destruct (single_loop_var_data _ _ _ _ _ El Hd) as [Hu | [v [Hv Hp]]].
      * discriminate Hu.
      * exists ids, v, d, syms. tauto.
    + destruct (batch_loop_record _ _ _ _ _ H Hr)
        as [v [d [syms [Hv [Hp [Hsy [Hf Hin]]]]]]].
      exists ids, v, d, syms. tauto.
  - destruct H as [H | H]; discriminate H.
Qed.

Lemma record_contains_requested_gene_witness :
  let r := chd8_batch_record "chd8" in
  outcome (Batch.query_clinvar_for_specific_variant chd8_server
             "chd8" "p.Arg1580Trp") = Ret r /\
  is_record r = true /\
  exists ids v d syms,
    candidates chd8_server "chd8" "p.Arg1580Trp" ids /\
    In v ids /\
    payload chd8_server v d /\
    symbols_of_payload d syms /\
    get r (VStr "Gene Symbol") VNone = Ret (VStr (join ", " syms)) /\
    in_strings (upper "chd8") (map upper syms) = true.
Proof.
  intros r.
  assert (Hq : outcome (Batch.query_clinvar_for_specific_variant chd8_server
                          "chd8" "p.Arg1580Trp") = Ret r) by reflexivity.
  assert (Hr : is_record r = true) by reflexivity.
  split; [exact Hq |]. split; [exact Hr |].
  exact (record_contains_requested_gene chd8_server "chd8" "p.Arg1580Trp" r
           (or_intror Hq) Hr).
Defined.

(** ** Exceptions that escape *)

(** C2.  The single-variant tool raises when the one candidate's detail
    fetch fails: [var_data] is read after the loop without ever having been
    assigned.  It raises as well when the matching candidate has no variation
    set, [canonical_spdi] being unassigned.  The batch tool returns a failure
    value and a record on the same two responses. *)
Theorem single_variant_raises_unbound_local :
  outcome (SingleVariant.query_clinvar_for_specific_variant detail_down_server
             "CHD8" "p.Arg1580Trp") = Raise UnboundLocalError /\
  outcome (SingleVariant.query_clinvar_for_specific_variant
             no_variation_set_server "CHD8" "p.Arg1580Trp")
    = Raise UnboundLocalError /\
  outcome (Batch.query_clinvar_for_specific_variant detail_down_server
             "CHD8" "p.Arg1580Trp")
    = Ret (Batch.failure "CHD8" "p.Arg1580Trp"
             "No matching ClinVar record for gene") /\
  exists r,
    outcome (Batch.query_clinvar_for_specific_variant no_variation_set_server
               "CHD8" "p.Arg1580Trp") = Ret r /\
    is_record r = true.
Proof.
  repeat split; try reflexivity.
  eexists. split; reflexivity.
Qed.

(** Both tools also raise on a search document of an unexpected shape, here
    one without the "esearchresult" key: the [KeyError] is not a
    [RequestException]. *)
Lemma unexpected_search_document_raises
  (srv : server) (gene_name variant : string) :
  esearch srv gene_name variant
    = Json (VDict [("error", VStr "unavailable")]) ->
  outcome (SingleVariant.query_clinvar_for_specific_variant srv gene_name variant)
    = Raise KeyError /\
  outcome (Batch.query_clinvar_for_specific_variant srv gene_name variant)
    = Raise KeyError.
Proof.
  intros H.
  unfold SingleVariant.query_clinvar_for_specific_variant,
    Batch.query_clinvar_for_specific_variant, search, request_esearch.
  simpl. rewrite H. split; reflexivity.
Qed.

(** ** The canonical descriptor *)

(** What lines 100-103 of the batch tool compute, case by case. *)
Lemma batch_canonical_spdi_cases (m : list (string * value)) :
  Batch.get_canonical_spdi (VDict m) =
  match dict_get m "variation_set" (VList []) with
  | VList (VDict first :: _) => Ret (dict_get first "canonical_spdi" (VStr "N/A"))
  | VList _ => Ret (VStr "N/A")
  | VStr _ => Ret (VStr "N/A")
  | VDict [] => Ret (VStr "N/A")
  | VDict _ => Raise KeyError
  | VNone => Ret (VStr "N/A")
  | VBool b => if b then Raise TypeError else Ret (VStr "N/A")
  | VNum n => if Z.eqb n 0 then Ret (VStr "N/A") else Raise TypeError
  end.
Proof.
  unfold Batch.get_canonical_spdi. simpl.
  destruct (dict_get m "variation_set" (VList [])) as [| [|] | n | s | l | m'];
    simpl; trivial.
  - destruct (Z.eqb n 0); reflexivity.
  - destruct s; reflexivity.
  - destruct l as [| [] l']; reflexivity.
  - destruct m'; reflexivity.
Qed.

(** C3.  In the single-variant tool a candidate that matches the gene but
    has no variation set makes the tool raise instead of reporting ['N/A'], and
    a structured first entry without the [canonical_spdi] key is reported as
    ['NA'].  The batch tool reports ['N/A'] on both. *)
Theorem single_variant_canonical_spdi_not_defaulted :
  outcome (SingleVariant.query_clinvar_for_specific_variant
             no_variation_set_server "CHD8" "p.Arg1580Trp")
    = Raise UnboundLocalError /\
  (r <- outcome (SingleVariant.query_clinvar_for_specific_variant
                   no_spdi_server "CHD8" "p.Arg1580Trp") ;;
   get r (VStr "Canonical spdi") VNone) = Ret (VStr "NA") /\
  (r <- outcome (Batch.query_clinvar_for_specific_variant
                   no_variation_set_server "CHD8" "p.Arg1580Trp") ;;
   get r (VStr "Canonical spdi") VNone) = Ret (VStr "N/A") /\
  (r <- outcome (Batch.query_clinvar_for_specific_variant
                   no_spdi_server "CHD8" "p.Arg1580Trp") ;;
   get r (VStr "Canonical spdi") VNone) = Ret (VStr "N/A").
Proof. repeat split; reflexivity. Qed.

(** ** The batch tool returns the first accepted candidate *)

Lemma search_eq (srv : server) (gene_name variant : string)
  (o : res (string + value)) :
  outcome (search srv gene_name variant) = o ->
  search srv gene_name variant = ([ESearch gene_name variant], o).
Proof.
  intros H. pose proof (search_calls srv gene_name variant) as Hc.
  destruct (search srv gene_name variant) as [t o'].
  unfold calls, outcome in *; simpl in *. now subst.
Qed.

Lemma res_map_upper (gs : list value) (syms : list string) :
  res_map as_str gs = Ret syms ->
  res_map py_upper gs = Ret (map upper syms).
Proof.
  revert syms. induction gs as [| g gs IH]; simpl; intros syms H.
  - inversion H. reflexivity.
  - destruct g; simpl in H; try discriminate.
    destruct (res_map as_str gs) as [syms' |]; simpl in H; try discriminate.
    inversion H; subst. simpl. now rewrite (IH syms' eq_refl).
Qed.

Lemma gene_in_strings (gene_name : string) (gs : list value)
  (syms : list string) :
  res_map as_str gs = Ret syms ->
  gene_in gene_name gs = Ret (in_strings (upper gene_name) (map upper syms)).
Proof.
  intros H. unfold gene_in. now rewrite (res_map_upper _ _ H).
Qed.

Lemma payload_fetched (srv : server) (v d summary_data : value) :
  payload srv v d ->
  fetch (esummary srv v) = inr summary_data ->
  get_var_data summary_data v = Ret d.
Proof.
  intros [sd [Hf Hg]] Hf'. rewrite Hf in Hf'. now inversion Hf'; subst.
Qed.

Lemma batch_examine_skipped (srv : server) (gene_name variant : string)
  (v summary_data : value) :
  skipped srv gene_name v ->
  fetch (esummary srv v) = inr summary_data ->
  Batch.examine gene_name variant v summary_data = Ret None.
Proof.
  intros Hs Hf. unfold Batch.examine.
  destruct Hs as [msg Hm | d Hp Ht | d syms Hp Ht [gs [Hg Hsy]] Hin
                 | d syms title Hp Ht [gs [Hg Hsy]] Hin Hti Hc].
  - rewrite Hf in Hm. discriminate.
  - rewrite (payload_fetched _ _ _ _ Hp Hf). simpl. now rewrite Ht.
  - rewrite (payload_fetched _ _ _ _ Hp Hf). simpl. rewrite Ht. simpl.
    rewrite Hg. simpl. rewrite (gene_in_strings _ _ _ Hsy). simpl.
    now rewrite Hin.
  - rewrite (payload_fetched _ _ _ _ Hp Hf). simpl. rewrite Ht. simpl.
    rewrite Hg. simpl. rewrite (gene_in_strings _ _ _ Hsy). simpl.
    rewrite Hin. simpl. rewrite Hti. simpl. now rewrite Hc.
Qed.

Lemma batch_examine_accepted (srv : server) (gene_name variant : string)
  (v d summary_data : value) (gs : list value) :
  accepted srv gene_name v d gs ->
  fetch (esummary srv v) = inr summary_data ->
  Batch.examine gene_name variant v summary_data =
  (r <- Batch.build_record gene_name variant v d gs ;; Ret (Some r)).
Proof.
  intros [Hp [Ht [Hg [[syms [Hsy Hin]] [title [Hti [Hdel Hdup]]]]]]] Hf.
  unfold Batch.examine.
  rewrite (payload_fetched _ _ _ _ Hp Hf). simpl. rewrite Ht. simpl.
  rewrite Hg. simpl. rewrite (gene_in_strings _ _ _ Hsy). simpl.
  rewrite Hin. simpl. rewrite Hti. simpl. now rewrite Hdel, Hdup.
Qed.

Lemma batch_loop_skip (srv : server) (gene_name variant : string)
  (v : value) (ids : list value) :
  skipped srv gene_name v ->
  Batch.candidate_loop srv gene_name variant (v :: ids) =
  (ESummary v :: calls (Batch.candidate_loop srv gene_name variant ids),
   outcome (Batch.candidate_loop srv gene_name variant ids)).
Proof.
  intros Hs. cbn [Batch.candidate_loop]. unfold request_esummary, bind.
  destruct (fetch (esummary srv v)) as [msg | summary_data] eqn:Ef.
  - reflexivity.
  - unfold lift. rewrite (batch_examine_skipped _ _ variant _ _ Hs Ef).
    reflexivity.
Qed.

Lemma batch_loop_first_accepted (srv : server) (gene_name variant : string)
  (pre post : list value) (v d r : value) (gs : list value) :
  Forall (skipped srv gene_name) pre ->
  accepted srv gene_name v d gs ->
  Batch.build_record gene_name variant v d gs = Ret r ->
  Batch.candidate_loop srv gene_name variant (pre ++ v :: post) =
  (map ESummary (pre ++ [v]), Ret r).
Proof.
  intros Hpre Hacc Hrec. induction Hpre as [| u pre Hu Hpre IH].
  - cbn [app map Batch.candidate_loop]. unfold request_esummary, bind.
    destruct Hacc as [[sd [Hf Hd]] Hrest].
    rewrite Hf. unfold lift.
    rewrite (batch_examine_accepted srv _ variant v d sd gs); trivial.
    + rewrite Hrec. reflexivity.
    + split; trivial. now exists sd.
  - cbn [app]. rewrite (batch_loop_skip _ _ _ _ _ Hu), IH. reflexivity.
Qed.

Lemma res_map_as_str_strings (ss : list string) :
  res_map as_str (map VStr ss) = Ret ss.
Proof.
  induction ss as [| s ss IH]; trivial.
  cbn [map res_map as_str]. rewrite IH. reflexivity.
Qed.

(** The record of an accepted candidate, field by field, for a payload whose
    classification is a dict and whose consequences are a list of strings
    (each taken with its default when the key is absent). *)
Lemma batch_build_record_fields (gene_name variant : string) (v spdi : value)
  (m cls : list (string * value)) (gs : list value)
  (syms consequences : list string) :
  res_map as_str gs = Ret syms ->
  Batch.get_canonical_spdi (VDict m) = Ret spdi ->
  dict_get m "germline_classification" (VDict []) = VDict cls ->
  dict_get m "molecular_consequence_list" (VList [VStr "N/A"])
    = VList (map VStr consequences) ->
  Batch.build_record gene_name variant v (VDict m) gs =
  Ret (VDict [("Gene", VStr gene_name);
              ("Variant", VStr variant);
              ("Variation ID", v);
              ("Accession", dict_get m "accession" (VStr "N/A"));
              ("Title", dict_get m "title" (VStr "N/A"));
              ("Canonical spdi", spdi);
              ("Gene Symbol", VStr (join ", " syms));
              ("Chromosome", dict_get m "chr_sort" (VStr "N/A"));
              ("ACMG score", dict_get cls "description" (VStr "N/A"));
              ("Molecular Consequence", VStr (join ", " consequences))]).
Proof.
  intros Hs Hc Hg Hm. unfold Batch.build_record, acmg_score, py_join_list.
  rewrite Hc, Hs. cbn [res_bind get]. rewrite Hg, Hm.
  cbn [res_bind get py_join iter]. unfold py_join_list.
  rewrite res_map_as_str_strings. reflexivity.
Qed.

(** C4.  In the batch tool, when the search lists the candidates
    [pre ++ v :: post], every candidate of [pre] is passed over (failed fetch,
    empty payload, gene not among its symbols, or gene among them and "del" or
    "dup" in its title) and [v] is accepted, the tool returns the record built
    from [v]; it fetches the details of [pre] and [v] in the listed order and
    of no later candidate. *)
Theorem batch_returns_first_accepted_candidate
  (srv : server) (gene_name variant : string)
  (pre post : list value) (v d r : value) (gs : list value) :
  candidates srv gene_name variant (pre ++ v :: post) ->
  Forall (skipped srv gene_name) pre ->
  accepted srv gene_name v d gs ->
  Batch.build_record gene_name variant v d gs = Ret r ->
  Batch.query_clinvar_for_specific_variant srv gene_name variant =
  (ESearch gene_name variant :: map ESummary (pre ++ [v]), Ret r).
Proof.
  intros [id_list [Hs [Ht Hi]]] Hpre Hacc Hrec.
  unfold Batch.query_clinvar_for_specific_variant.
  rewrite (search_eq _ _ _ _ Hs). unfold bind at 1. cbn [fst snd].
  rewrite Ht. cbn [negb]. unfold lift. rewrite Hi. unfold bind.
  rewrite (batch_loop_first_accepted _ _ _ _ _ _ _ _ _ Hpre Hacc Hrec).
  reflexivity.
Qed.

Lemma batch_returns_first_accepted_candidate_witness :
  Batch.query_clinvar_for_specific_variant asxl1_server "asxl1" "p.Gly646Trp" =
  (ESearch "asxl1" "p.Gly646Trp"
     :: map ESummary [VStr "1"; VStr "2"; VStr "3"; VStr "4"],
   Ret asxl1_record).
Proof.
  apply (batch_returns_first_accepted_candidate asxl1_server
           "asxl1" "p.Gly646Trp"
           [VStr "1"; VStr "2"; VStr "3"] [VStr "5"] (VStr "4")
           (VDict (asxl1_fields "4" "NM_015338.6(ASXL1):c.1936G>T (p.Gly646Trp)"))
           asxl1_record [VStr "ASXL1"]).
  - eexists. repeat split; reflexivity.
  - repeat constructor.
    + apply skip_fetch_failed with (msg := "429 Client Error: Too Many Requests").
      reflexivity.
    + apply skip_other_gene
        with (d := VDict [("title", VStr "NM_000546.6(TP53):c.1936G>T");
                          ("genes", genes_of ["TP53"])])
             (syms := ["TP53"]).
      * eexists. split; reflexivity.
      * reflexivity.
      * eexists. split; reflexivity.
      * reflexivity.
    + apply skip_del_dup
        with (d := VDict (asxl1_fields "3" "NM_015338.6(ASXL1):c.1934del (p.Gly645fs)"))
             (syms := ["ASXL1"])
             (title := "NM_015338.6(ASXL1):c.1934del (p.Gly645fs)").
      * eexists. split; reflexivity.
      * reflexivity.
      * eexists. split; reflexivity.
      * reflexivity.
      * reflexivity.
      * reflexivity.
  - split; [eexists; split; reflexivity |].
    split; [reflexivity |]. split; [reflexivity |].
    split; [exists ["ASXL1"]; split; reflexivity |].
    exists "NM_015338.6(ASXL1):c.1936G>T (p.Gly646Trp)".
    repeat split; reflexivity.
  - reflexivity.
Defined.

(** ** The single-variant tool reads the loop's last assignment *)

Lemma last_after {A} (l : list A) (x d : A) :
  last (x :: l) d = last l x.
Proof.
  revert x d. induction l as [| y l IH]; intros x d; trivial.
  change (last (y :: l) d = last (y :: l) x). now rewrite !IH.
Qed.

Lemma last_some {A} (l : list A) (a : A) :
  last (map Some l) (Some a) = Some (last l a).
Proof.
  revert a. induction l as [| x l IH]; intros a; trivial.
  cbn [map]. destruct l as [| y l']; trivial.
  change (last (map Some (y :: l')) (Some a) = Some (last (y :: l') a)).
  apply IH.
Qed.

Lemma single_loop_failures (srv : server) (ids : list value) :
  Forall (fetch_fails srv) ids ->
  forall st,
    outcome (SingleVariant.candidate_loop srv ids st) =
    Ret {| SingleVariant.var_id := last (map Some ids) (SingleVariant.var_id st);
           SingleVariant.var_data := SingleVariant.var_data st |}.
Proof.
  induction 1 as [| v ids [msg Hv] Hids IH]; intros st.
  - destruct st; reflexivity.
  - cbn [SingleVariant.candidate_loop]. rewrite outcome_bind.
    cbn [request_esummary outcome snd]. rewrite Hv, IH.
    cbn [SingleVariant.var_id SingleVariant.var_data map].
    now rewrite last_after.
Qed.

Lemma single_loop_last_fetched (srv : server) (pre post : list value)
  (u d : value) :
  Forall (looked_up srv) pre ->
  payload srv u d ->
  Forall (fetch_fails srv) post ->
  forall st,
    outcome (SingleVariant.candidate_loop srv (pre ++ u :: post) st) =
    Ret {| SingleVariant.var_id := Some (last post u);
           SingleVariant.var_data := Some d |}.
Proof.
  intros Hpre [sd [Hf Hd]] Hpost.
  induction Hpre as [| v pre Hv Hpre IH]; intros st.
  - cbn [app SingleVariant.candidate_loop]. rewrite outcome_bind.
    cbn [request_esummary outcome snd]. rewrite Hf.
    rewrite outcome_bind, outcome_lift, Hd.
    rewrite (single_loop_failures _ _ Hpost).
    cbn [SingleVariant.var_id SingleVariant.var_data].
    now rewrite last_some.
  - cbn [app SingleVariant.candidate_loop]. rewrite outcome_bind.
    cbn [request_esummary outcome snd].
    destruct Hv as [[msg Hm] | [d' [sd' [Hf' Hd']]]].
    + rewrite Hm. apply IH.
    + rewrite Hf'. rewrite outcome_bind, outcome_lift, Hd'. apply IH.
Qed.

Lemma single_query_last_fetched (srv : server) (gene_name variant : string)
  (pre post : list value) (u d : value) :
  candidates srv gene_name variant (pre ++ u :: post) ->
  Forall (looked_up srv) pre ->
  payload srv u d ->
  Forall (fetch_fails srv) post ->
  outcome (SingleVariant.query_clinvar_for_specific_variant
             srv gene_name variant) =
  SingleVariant.after_loop gene_name
    {| SingleVariant.var_id := Some (last post u);
       SingleVariant.var_data := Some d |}.
Proof.
  intros [id_list [Hs [Ht Hi]]] Hpre Hu Hpost.
  unfold SingleVariant.query_clinvar_for_specific_variant.
  rewrite outcome_bind, Hs, Ht. cbn [negb].
  rewrite outcome_bind, outcome_lift, Hi.
  rewrite outcome_bind, (single_loop_last_fetched _ _ _ _ _ Hpre Hu Hpost).
  apply outcome_lift.
Qed.

(** C5, as stated, fails: with the last candidate's detail fetch failing on
    both servers, the outcome still follows the first candidate's detail. *)
Lemma not_decided_by_last_candidate :
  ~ decided_by_last_candidate
      (second_down_server chd8_fields) (second_down_server tp53_fields)
      "CHD8" "p.Arg1580Trp".
Proof.
  intros H.
  specialize (H [VStr "1"] (VStr "2")).
  assert (Hne : [VStr "1"] <> []) by discriminate.
  assert (HA : candidates (second_down_server chd8_fields)
                 "CHD8" "p.Arg1580Trp" ([VStr "1"] ++ [VStr "2"]))
    by (eexists; repeat split; reflexivity).
  assert (HB : candidates (second_down_server tp53_fields)
                 "CHD8" "p.Arg1580Trp" ([VStr "1"] ++ [VStr "2"]))
    by (eexists; repeat split; reflexivity).
  specialize (H Hne HA HB eq_refl).
  vm_compute in H. discriminate H.
Qed.

(** C5, amended.  In the single-variant tool, when the loop gets past every
    candidate, the gene comparison and the returned value are those of the
    code after the loop run on the payload [d] of the last candidate whose
    detail fetch succeeded, with the last identifier of the list as
    "Variation ID"; the payloads of the candidates before it play no part. *)
Theorem single_variant_uses_last_fetched_payload
  (srv : server) (gene_name variant : string)
  (pre post : list value) (u d : value) :
  candidates srv gene_name variant (pre ++ u :: post) ->
  Forall (looked_up srv) pre ->
  payload srv u d ->
  Forall (fetch_fails srv) post ->
  outcome (SingleVariant.query_clinvar_for_specific_variant
             srv gene_name variant) =
  SingleVariant.after_loop gene_name
    {| SingleVariant.var_id := Some (last post u);
       SingleVariant.var_data := Some d |}.
Proof.
  exact (single_query_last_fetched srv gene_name variant pre post u d).
Qed.

Lemma single_variant_uses_last_fetched_payload_witness :
  outcome (SingleVariant.query_clinvar_for_specific_variant
             chd8_tp53_down_server "CHD8" "p.Arg1580Trp") =
  SingleVariant.after_loop "CHD8"
    {| SingleVariant.var_id := Some (last [VStr "3"] (VStr "2"));
       SingleVariant.var_data := Some (VDict tp53_fields) |}.
Proof.
  apply (single_variant_uses_last_fetched_payload chd8_tp53_down_server
           "CHD8" "p.Arg1580Trp" [VStr "1"] [VStr "3"] (VStr "2")
           (VDict tp53_fields)).
  - eexists. repeat split; reflexivity.
  - constructor; [| constructor].
    right. exists (VDict chd8_fields). eexists. split; reflexivity.
  - eexists. split; reflexivity.
  - constructor; [| constructor].
    exists "502 Server Error". reflexivity.
Defined.

(** On that server the first candidate names CHD8, yet the answer is the
    mismatch message of the second. *)
Lemma first_match_is_overwritten :
  outcome (SingleVariant.query_clinvar_for_specific_variant
             chd8_tp53_down_server "CHD8" "p.Arg1580Trp") =
  Ret (VStr "Variant found but not associated with gene CHD8. Found genes: TP53").
Proof. reflexivity. Qed.

(** ** What the mismatch failure reports *)

Lemma batch_loop_all_skipped (srv : server) (gene_name variant : string)
  (ids : list value) :
  Forall (skipped srv gene_name) ids ->
  outcome (Batch.candidate_loop srv gene_name variant ids) =
  Ret (Batch.failure gene_name variant "No matching ClinVar record for gene").
Proof.
  induction 1 as [| v ids Hv Hids IH]; trivial.
  rewrite (batch_loop_skip _ _ _ _ _ Hv). exact IH.
Qed.

Lemma single_after_loop_mismatch (gene_name : string)
  (st : SingleVariant.locals) (d : value) (syms : list string) :
  SingleVariant.var_data st = Some d ->
  symbols_of_payload d syms ->
  in_strings (upper gene_name) (map upper syms) = false ->
  SingleVariant.after_loop gene_name st =
  Ret (VStr ("Variant found but not associated with gene " ++ gene_name
             ++ ". Found genes: " ++ join ", " syms)).
Proof.
  intros Hd [gs [Hg Hsy]] Hin. unfold SingleVariant.after_loop.
  rewrite Hd. simpl. rewrite Hg. simpl.
  rewrite (gene_in_strings _ _ _ Hsy). simpl. rewrite Hin. simpl.
  unfold py_join_list. rewrite Hsy. reflexivity.
Qed.

(** C6, as stated, fails in both tools: asked for CHD8 where the two
    candidates are of BRCA1 and TP53, neither failure message names BRCA1. *)
Lemma mismatch_does_not_report_all_symbols :
  ~ reports_all_symbols SingleVariant.query_clinvar_for_specific_variant /\
  ~ reports_all_symbols Batch.query_clinvar_for_specific_variant.
Proof.
  assert (Hc : candidates brca1_tp53_server "CHD8" "p.Arg1580Trp"
                 [VStr "1"; VStr "2"])
    by (eexists; repeat split; reflexivity).
  assert (Hp : payload brca1_tp53_server (VStr "1")
                 (VDict [("accession", VStr "VCV000000001");
                         ("genes", genes_of ["BRCA1"])]))
    by (eexists; split; reflexivity).
  assert (Hs : symbols_of_payload
                 (VDict [("accession", VStr "VCV000000001");
                         ("genes", genes_of ["BRCA1"])]) ["BRCA1"])
    by (eexists; split; reflexivity).
  split; intros H.
  - destruct (H brca1_tp53_server "CHD8" "p.Arg1580Trp" _ _ Hc
                eq_refl eq_refl) as [msg [Hm Hall]].
    inversion Hm; subst msg.
    specialize (Hall _ _ _ "BRCA1" (or_introl eq_refl) Hp Hs (or_introl eq_refl)).
    vm_compute in Hall. discriminate Hall.
  - destruct (H brca1_tp53_server "CHD8" "p.Arg1580Trp" _ _ Hc
                eq_refl eq_refl) as [msg [Hm Hall]].
    inversion Hm; subst msg.
    specialize (Hall _ _ _ "BRCA1" (or_introl eq_refl) Hp Hs (or_introl eq_refl)).
    vm_compute in Hall. discriminate Hall.
Qed.

(** C6, amended.  When the search lists candidates: if the batch tool passes
    over every one of them it returns the fixed failure "No matching ClinVar
    record for gene", which names no gene symbol; and if the single-variant
    tool gets through its loop and the symbols of the last payload fetched
    do not include the gene, it returns a mismatch message listing the symbols
    of that one payload. *)
Theorem mismatch_failure_messages
  (srv : server) (gene_name variant : string) (ids : list value) :
  candidates srv gene_name variant ids ->
  (Forall (skipped srv gene_name) ids ->
   outcome (Batch.query_clinvar_for_specific_variant srv gene_name variant) =
   Ret (VDict [("Gene", VStr gene_name); ("Variant", VStr variant);
               ("Error", VStr "No matching ClinVar record for gene")])) /\
  (forall (pre post : list value) (u d : value) (syms : list string),
     ids = (pre ++ u :: post)%list ->
     Forall (looked_up srv) pre ->
     payload srv u d ->
     Forall (fetch_fails srv) post ->
     symbols_of_payload d syms ->
     in_strings (upper gene_name) (map upper syms) = false ->
     outcome (SingleVariant.query_clinvar_for_specific_variant
                srv gene_name variant) =
     Ret (VStr ("Variant found but not associated with gene " ++ gene_name
                ++ ". Found genes: " ++ join ", " syms))).
Proof.
  intros Hc. split.
  - intros Hall. destruct Hc as [id_list [Hs [Ht Hi]]].
    unfold Batch.query_clinvar_for_specific_variant.
    rewrite outcome_bind, Hs, Ht. cbn [negb].
    rewrite outcome_bind, outcome_lift, Hi.
    exact (batch_loop_all_skipped _ _ _ _ Hall).
  - intros pre post u d syms Hids Hpre Hu Hpost Hsy Hin. subst ids.
    rewrite (single_query_last_fetched _ _ _ _ _ _ _ Hc Hpre Hu Hpost).
    now apply single_after_loop_mismatch with (d := d).
Qed.

Lemma mismatch_failure_messages_witness :
  outcome (Batch.query_clinvar_for_specific_variant brca1_tp53_server
             "CHD8" "p.Arg1580Trp") =
  Ret (VDict [("Gene", VStr "CHD8"); ("Variant", VStr "p.Arg1580Trp");
              ("Error", VStr "No matching ClinVar record for gene")]) /\
  outcome (SingleVariant.query_clinvar_for_specific_variant brca1_tp53_server
             "CHD8" "p.Arg1580Trp") =
  Ret (VStr ("Variant found but not associated with gene " ++ "CHD8"
             ++ ". Found genes: " ++ join ", " ["TP53"])).
Proof.
  assert (Hc : candidates brca1_tp53_server "CHD8" "p.Arg1580Trp"
                 [VStr "1"; VStr "2"])
    by (eexists; repeat split; reflexivity).
  assert (Hp1 : payload brca1_tp53_server (VStr "1")
                  (VDict [("accession", VStr "VCV000000001");
                          ("genes", genes_of ["BRCA1"])]))
    by (eexists; split; reflexivity).
  assert (Hp2 : payload brca1_tp53_server (VStr "2") (VDict tp53_fields))
    by (eexists; split; reflexivity).
  assert (Hs1 : symbols_of_payload
                  (VDict [("accession", VStr "VCV000000001");
                          ("genes", genes_of ["BRCA1"])]) ["BRCA1"])
    by (eexists; split; reflexivity).
  assert (Hs2 : symbols_of_payload (VDict tp53_fields) ["TP53"])
    by (eexists; split; reflexivity).
  destruct (mismatch_failure_messages brca1_tp53_server "CHD8" "p.Arg1580Trp"
              [VStr "1"; VStr "2"] Hc) as [Hb Hsv].
  split.
  - apply Hb. constructor; [| constructor; [| constructor]].
    + exact (skip_other_gene _ "CHD8" _ _ _ Hp1 eq_refl Hs1 eq_refl).
    + exact (skip_other_gene _ "CHD8" _ _ _ Hp2 eq_refl Hs2 eq_refl).
  - apply (Hsv [VStr "1"] [] (VStr "2") (VDict tp53_fields) ["TP53"]);
      trivial.
    constructor; [| constructor]. right. eexists. exact Hp1.
Defined.

(** ** The batch driver *)

Lemma rows_loop_results (srv : server) (rows : list Batch.row) :
  (forall r, In r rows -> blank r = false ->
     exists v,
       outcome (Batch.query_clinvar_for_specific_variant
                  srv (gene_of r) (variant_of r)) = Ret v) ->
  forall acc,
  exists results,
    outcome (Batch.rows_loop srv rows acc) = Ret (acc ++ results)%list /\
    Forall2 (fun r v =>
               outcome (Batch.query_clinvar_for_specific_variant
                          srv (gene_of r) (variant_of r)) = Ret v)
            (filter non_blank rows) results.
Proof.
  induction rows as [| r rows IH]; intros Hq acc.
  - exists []. split; [| constructor]. cbn. now rewrite app_nil_r.
  - assert (Hq' : forall r', In r' rows -> blank r' = false ->
                    exists v,
                      outcome (Batch.query_clinvar_for_specific_variant
                                 srv (gene_of r') (variant_of r')) = Ret v)
      by (intros r' Hin; apply Hq; now right).
    cbn [Batch.rows_loop filter]. unfold non_blank at 1.
    fold (gene_of r) (variant_of r). fold (blank r).
    destruct (blank r) eqn:Eb; cbn [negb].
    + apply (IH Hq' acc).
    + destruct (Hq r (or_introl eq_refl) Eb) as [v Hv].
      destruct (IH Hq' (acc ++ [v])%list) as [results [Hres Hall]].
      exists (v :: results). split.
      * rewrite outcome_bind, Hv, Hres. now rewrite <- app_assoc.
      * now constructor.
Qed.

(** What the driver does relative to its own test, [blank]: provided the
    resolver returns a value for each row that passes the test, the results
    hold exactly the resolver's result for each such row, in order. *)
Theorem batch_one_result_per_non_blank_row
  (srv : server) (df : list Batch.row) :
  (forall r, In r df -> blank r = false ->
     exists v,
       outcome (Batch.query_clinvar_for_specific_variant
                  srv (gene_of r) (variant_of r)) = Ret v) ->
  exists results,
    outcome (Batch.batch_query_from_excel srv df) = Ret results /\
    length results = length (filter non_blank df) /\
    Forall2 (fun r v =>
               outcome (Batch.query_clinvar_for_specific_variant
                          srv (gene_of r) (variant_of r)) = Ret v)
            (filter non_blank df) results.
Proof.
  intros Hq. destruct (rows_loop_results srv df Hq []) as [results [Hr Hall]].
  exists results. repeat split; trivial.
  symmetry. exact (Forall2_length Hall).
Qed.

Lemma batch_one_result_per_non_blank_row_witness :
  length (filter non_blank table_with_blank_row) = 2 /\
  exists results,
    outcome (Batch.batch_query_from_excel chd8_server table_with_blank_row)
      = Ret results /\
    length results = length (filter non_blank table_with_blank_row) /\
    Forall2 (fun r v =>
               outcome (Batch.query_clinvar_for_specific_variant
                          chd8_server (gene_of r) (variant_of r)) = Ret v)
            (filter non_blank table_with_blank_row) results.
Proof.
  split; [reflexivity |].
  apply (batch_one_result_per_non_blank_row chd8_server table_with_blank_row).
  intros r Hin Hb. unfold table_with_blank_row in Hin.
  destruct Hin as [Hr | [Hr | [Hr | []]]]; subst r.
  - eexists. vm_compute. reflexivity.
  - vm_compute in Hb. discriminate Hb.
  - eexists. vm_compute. reflexivity.
Defined.

(** A cell read as NaN is the text "nan" for the driver, so a row of such
    cells is not blank and is queried like any other. *)
Lemma nan_row_is_queried :
  blank [("Gene", Batch.CNaN); ("Variant", Batch.CNaN)] = false /\
  calls (Batch.batch_query_from_excel empty_server table_with_nan_row) =
  [ESearch "CHD8" "p.Arg1580Trp"; ESearch "nan" "nan";
   ESearch "chd8" "p.Arg1580Trp"].
Proof. split; reflexivity. Qed.

(** C9.  A row whose "Gene" and "Variant" cells are empty in the
    spreadsheet is not skipped: the cells are read as NaN, [str] turns them
    into the text "nan", and the test for a blank row lets the row through.
    On a table of two filled rows around such a row the driver queries three
    times and gives three output rows, the middle one a failure for the gene
    "nan". *)
Theorem empty_cells_are_queried_not_skipped :
  blank [("Gene", Batch.CNaN); ("Variant", Batch.CNaN)] = false /\
  outcome (Batch.batch_query_from_excel chd8_server table_with_nan_row) =
  Ret [chd8_batch_record "CHD8";
       VDict [("Gene", VStr "nan"); ("Variant", VStr "nan");
              ("Error", VStr "No matching ClinVar record for gene")];
       chd8_batch_record "chd8"] /\
  filter is_esearch
    (calls (Batch.batch_query_from_excel chd8_server table_with_nan_row)) =
  [ESearch "CHD8" "p.Arg1580Trp"; ESearch "nan" "nan";
   ESearch "chd8" "p.Arg1580Trp"].
Proof. repeat split; reflexivity. Qed.

(** ** Gene entries without a symbol *)

Lemma extract_gene_symbols_app (l1 l2 : list value) :
  extract_gene_symbols (l1 ++ l2) =
  (extract_gene_symbols l1 ++ extract_gene_symbols l2)%list.
Proof.
  induction l1 as [| g l1 IH]; trivial.
  cbn [app extract_gene_symbols]. destruct g; rewrite IH; reflexivity.
Qed.

Lemma res_map_as_str_In (gs : list value) (syms : list string) (s : string) :
  res_map as_str gs = Ret syms -> In (VStr s) gs -> In s syms.
Proof.
  revert syms. induction gs as [| g gs IH]; intros syms H Hin.
  - destruct Hin.
  - cbn [res_map] in H. destruct g; simpl in H; try discriminate.
    destruct (res_map as_str gs) as [syms' |]; simpl in H; try discriminate.
    inversion H; subst. destruct Hin as [Heq | Hin].
    + inversion Heq. now left.
    + right. now apply IH.
Qed.

(** The extraction step alone: a structured gene entry without a "symbol"
    key contributes the empty string to the extracted symbols, at its place
    in the list, and the comparison on that list succeeds for the empty gene
    name. *)
Theorem missing_symbol_yields_empty_string
  (m : list (string * value)) (before after : list value) :
  lookup "symbol" m = None ->
  extract_gene_symbols (before ++ VDict m :: after) =
  (extract_gene_symbols before
     ++ VStr EmptyString :: extract_gene_symbols after)%list /\
  forall syms,
    res_map as_str (extract_gene_symbols (before ++ VDict m :: after))
      = Ret syms ->
    In EmptyString syms /\
    gene_in EmptyString (extract_gene_symbols (before ++ VDict m :: after))
      = Ret true.
Proof.
  intros Hm.
  assert (He : extract_gene_symbols (before ++ VDict m :: after) =
               (extract_gene_symbols before
                  ++ VStr EmptyString :: extract_gene_symbols after)%list).
  { rewrite extract_gene_symbols_app. cbn [extract_gene_symbols].
    unfold dict_get. now rewrite Hm. }
  split; trivial.
  intros syms Hs.
  assert (Hin : In EmptyString syms).
  { apply (res_map_as_str_In _ _ _ Hs). rewrite He.
    apply in_or_app. right. now left. }
  split; trivial.
  rewrite (gene_in_strings _ _ _ Hs). f_equal.
  apply in_strings_In. exact (in_map upper _ _ Hin).
Qed.

Lemma missing_symbol_yields_empty_string_witness :
  extract_gene_symbols
    ([VDict [("symbol", VStr "CHD8")]] ++ VDict [("geneid", VStr "57680")] :: []) =
  (extract_gene_symbols [VDict [("symbol", VStr "CHD8")]]
     ++ VStr EmptyString :: extract_gene_symbols [])%list /\
  forall syms,
    res_map as_str
      (extract_gene_symbols
         ([VDict [("symbol", VStr "CHD8")]]
            ++ VDict [("geneid", VStr "57680")] :: [])) = Ret syms ->
    In EmptyString syms /\
    gene_in EmptyString
      (extract_gene_symbols
         ([VDict [("symbol", VStr "CHD8")]]
            ++ VDict [("geneid", VStr "57680")] :: [])) = Ret true.
Proof.
  apply (missing_symbol_yields_empty_string
           [("geneid", VStr "57680")] [VDict [("symbol", VStr "CHD8")]] []).
  reflexivity.
Defined.

(** On a server whose one candidate has such an entry, the "Gene Symbol"
    field of both tools ends in an empty entry, and the empty gene name is
    matched. *)
Lemma empty_entry_in_gene_symbol_field :
  (r <- outcome (SingleVariant.query_clinvar_for_specific_variant
                   unnamed_gene_server "CHD8" "p.Arg1580Trp") ;;
   get r (VStr "Gene Symbol") VNone) = Ret (VStr "CHD8, ") /\
  (r <- outcome (Batch.query_clinvar_for_specific_variant
                   unnamed_gene_server "CHD8" "p.Arg1580Trp") ;;
   get r (VStr "Gene Symbol") VNone) = Ret (VStr "CHD8, ") /\
  (r <- outcome (SingleVariant.query_clinvar_for_specific_variant
                   unnamed_gene_server EmptyString "p.Arg1580Trp") ;;
   get r (VStr "Gene Symbol") VNone) = Ret (VStr "CHD8, ") /\
  (r <- outcome (Batch.query_clinvar_for_specific_variant
                   unnamed_gene_server EmptyString "p.Arg1580Trp") ;;
   get r (VStr "Gene Symbol") VNone) = Ret (VStr "CHD8, ").
Proof. repeat split; reflexivity. Qed.

(** * Further properties of the code *)

(** ** What the batch tool returns, and why *)

Lemma batch_build_record_shape (gene_name variant : string) (v d r : value)
  (gs : list value) :
  Batch.build_record gene_name variant v d gs = Ret r ->
  is_record r = true /\
  keys r = record_keys /\
  get r (VStr "Gene") VNone = Ret (VStr gene_name) /\
  get r (VStr "Variant") VNone = Ret (VStr variant) /\
  get r (VStr "Variation ID") VNone = Ret v.
Proof.
  unfold Batch.build_record. intros H. bind_inv H.
  inversion H; subst r. repeat split; reflexivity.
Qed.

Lemma py_lower_string (t : value) (l : string) :
  py_lower t = Ret l -> exists title, t = VStr title /\ l = lower title.
Proof.
  destruct t; simpl; intros H; try discriminate.
  inversion H. now exists s.
Qed.

Lemma gene_in_false_symbols (gene_name : string) (gs : list value) :
  gene_in gene_name gs = Ret false ->
  exists syms,
    res_map as_str gs = Ret syms /\
    in_strings (upper gene_name) (map upper syms) = false.
Proof.
  unfold gene_in. intros H. bind_inv H.
  destruct (res_map_upper_strings _ _ E) as [syms [Hs Hu]].
  exists syms. split; trivial. inversion H. now subst.
Qed.

(** An iteration that ends in [continue] had one of the four reasons. *)
Lemma batch_examine_none (srv : server) (gene_name variant : string)
  (v summary_data : value) :
  fetch (esummary srv v) = inr summary_data ->
  Batch.examine gene_name variant v summary_data = Ret None ->
  skipped srv gene_name v.
Proof.
  intros Hf H. unfold Batch.examine in H.
  destruct (get_var_data summary_data v) as [d |] eqn:Ed; simpl in H;
    [| discriminate].
  assert (Hp : payload srv v d) by (exists summary_data; now split).
  destruct (truthy d) eqn:Et; simpl in H.
  2:{ now apply skip_empty_payload with (d := d). }
  destruct (gene_symbols_of d) as [gs |] eqn:Egs; simpl in H; [| discriminate].
  destruct (gene_in gene_name gs) as [[|] |] eqn:Ein; simpl in H;
    try discriminate.
  - destruct (gene_in_symbols _ _ Ein) as [syms [Hs Hin]].
    destruct (get d (VStr "title") (VStr EmptyString)) as [t |] eqn:Eti;
      simpl in H; [| discriminate].
    destruct (py_lower t) as [l |] eqn:El; simpl in H; [| discriminate].
    destruct (py_lower_string _ _ El) as [title [Ht Hl]]. subst t l.
    destruct (contains "del" (lower title) || contains "dup" (lower title))
      eqn:Ec; simpl in H.
    + apply skip_del_dup with (d := d) (syms := syms) (title := title);
        trivial.
      exists gs. now split.
    + destruct (Batch.build_record gene_name variant v d gs); discriminate.
  - destruct (gene_in_false_symbols _ _ Ein) as [syms [Hs Hin]].
    apply skip_other_gene with (d := d) (syms := syms); trivial.
    exists gs. now split.
Qed.

(** An iteration that ends in [return] accepted its candidate. *)
Lemma batch_examine_some (srv : server) (gene_name variant : string)
  (v summary_data r : value) :
  fetch (esummary srv v) = inr summary_data ->
  Batch.examine gene_name variant v summary_data = Ret (Some r) ->
  exists d gs,
    accepted srv gene_name v d gs /\
    Batch.build_record gene_name variant v d gs = Ret r.
Proof.
  intros Hf H. unfold Batch.examine in H.
  destruct (get_var_data summary_data v) as [d |] eqn:Ed; simpl in H;
    [| discriminate].
  destruct (truthy d) eqn:Et; simpl in H; [| discriminate].
  destruct (gene_symbols_of d) as [gs |] eqn:Egs; simpl in H; [| discriminate].
  destruct (gene_in gene_name gs) as [[|] |] eqn:Ein; simpl in H;
    try discriminate.
  destruct (gene_in_symbols _ _ Ein) as [syms [Hs Hin]].
  destruct (get d (VStr "title") (VStr EmptyString)) as [t |] eqn:Eti;
    simpl in H; [| discriminate].
  destruct (py_lower t) as [l |] eqn:El; simpl in H; [| discriminate].
  destruct (py_lower_string _ _ El) as [title [Ht Hl]]. subst t l.
  destruct (contains "del" (lower title) || contains "dup" (lower title))
    eqn:Ec; simpl in H; [discriminate |].
  apply orb_false_elim in Ec. destruct Ec as [Hdel Hdup].
  destruct (Batch.build_record gene_name variant v d gs) as [r' |] eqn:Eb;
    simpl in H; [| discriminate].
  inversion H; subst r'. exists d, gs. split; trivial.
  split; [exists summary_data; now split |].
  split; trivial. split; trivial.
  split; [exists syms; now split |].
  exists title. now repeat split.
Qed.

Lemma batch_loop_inversion (srv : server) (gene_name variant : string)
  (ids : list value) (r : value) :
  outcome (Batch.candidate_loop srv gene_name variant ids) = Ret r ->
  (r = Batch.failure gene_name variant "No matching ClinVar record for gene" /\
   Forall (skipped srv gene_name) ids) \/
  (exists pre v post d gs,
     ids = (pre ++ v :: post)%list /\
     Forall (skipped srv gene_name) pre /\
     accepted srv gene_name v d gs /\
     Batch.build_record gene_name variant v d gs = Ret r).
Proof.
  induction ids as [| u ids IH]; intros H; cbn [Batch.candidate_loop] in H.
  - inversion H. left. split; [reflexivity | constructor].
  - rewrite outcome_bind in H. cbn [request_esummary outcome snd] in H.
    assert (Hskip : skipped srv gene_name u ->
                    outcome (Batch.candidate_loop srv gene_name variant ids)
                      = Ret r ->
                    (r = Batch.failure gene_name variant
                           "No matching ClinVar record for gene" /\
                     Forall (skipped srv gene_name) (u :: ids)) \/
                    (exists pre v post d gs,
                       (u :: ids) = (pre ++ v :: post)%list /\
                       Forall (skipped srv gene_name) pre /\
                       accepted srv gene_name v d gs /\
                       Batch.build_record gene_name variant v d gs = Ret r)).
    { intros Hu H'. destruct (IH H') as [[Hr Hall] | Hex].
      - left. split; trivial. now constructor.
      - destruct Hex as [pre [v [post [d [gs [Hids [Hpre Hrest]]]]]]].
        right. exists (u :: pre), v, post, d, gs. subst ids.
        split; [reflexivity |]. split; [now constructor | exact Hrest]. }
    destruct (fetch (esummary srv u)) as [msg | summary_data] eqn:Ef.
    + apply Hskip; trivial. now apply skip_fetch_failed with (msg := msg).
    + rewrite outcome_bind, outcome_lift in H.
      destruct (Batch.examine gene_name variant u summary_data)
        as [[r' |] |] eqn:Ee; try discriminate.
      * cbn in H. inversion H; subst r'.
        destruct (batch_examine_some _ _ _ _ _ _ Ef Ee) as [d [gs [Ha Hb]]].
        right. exists [], u, ids, d, gs.
        split; [reflexivity |]. split; [constructor | now split].
      * apply Hskip; trivial. exact (batch_examine_none _ _ _ _ _ Ef Ee).
Qed.

(** The ways the batch tool's function ends with a value. *)
Lemma batch_query_inversion (srv : server) (gene_name variant : string)
  (r : value) :
  outcome (Batch.query_clinvar_for_specific_variant srv gene_name variant)
    = Ret r ->
  (exists msg,
     outcome (search srv gene_name variant) = Ret (inl msg) /\
     r = Batch.failure gene_name variant ("Unable to search ClinVar: " ++ msg)) \/
  (exists id_list,
     outcome (search srv gene_name variant) = Ret (inr id_list) /\
     truthy id_list = false /\
     r = Batch.failure gene_name variant
           ("No variants found for gene: " ++ gene_name)) \/
  (exists ids,
     candidates srv gene_name variant ids /\
     outcome (Batch.candidate_loop srv gene_name variant ids) = Ret r).
Proof.
  unfold Batch.query_clinvar_for_specific_variant. intros H.
  rewrite outcome_bind in H.
  destruct (outcome (search srv gene_name variant)) as [[msg | id_list] |] eqn:Es;
    [| | discriminate].
  - left. exists msg. inversion H. now split.
  - right. destruct (truthy id_list) eqn:Et; cbn [negb] in H.
    + right. rewrite outcome_bind, outcome_lift in H.
      destruct (iter id_list) as [ids |] eqn:Ei; [| discriminate].
      exists ids. split; trivial. now exists id_list.
    + left. exists id_list. inversion H. now repeat split.
Qed.

Lemma candidates_unique (srv : server) (gene_name variant : string)
  (ids ids' : list value) :
  candidates srv gene_name variant ids ->
  candidates srv gene_name variant ids' ->
  ids = ids'.
Proof.
  intros [l [Hs [_ Hi]]] [l' [Hs' [_ Hi']]].
  rewrite Hs in Hs'. inversion Hs'; subst l'.
  rewrite Hi in Hi'. now inversion Hi'.
Qed.

Lemma batch_build_record_inversion (gene_name variant : string)
  (v d r : value) (gs : list value) :
  Batch.build_record gene_name variant v d gs = Ret r ->
  exists m spdi names acmg consequence,
    d = VDict m /\
    Batch.get_canonical_spdi d = Ret spdi /\
    py_join_list ", " gs = Ret names /\
    acmg_score d = Ret acmg /\
    r = VDict [("Gene", VStr gene_name);
               ("Variant", VStr variant);
               ("Variation ID", v);
               ("Accession", dict_get m "accession" (VStr "N/A"));
               ("Title", dict_get m "title" (VStr "N/A"));
               ("Canonical spdi", spdi);
               ("Gene Symbol", VStr names);
               ("Chromosome", dict_get m "chr_sort" (VStr "N/A"));
               ("ACMG score", acmg);
               ("Molecular Consequence", VStr consequence)].
Proof.
  unfold Batch.build_record. intros H.
  destruct (Batch.get_canonical_spdi d) as [spdi |] eqn:Ec; simpl in H;
    [| discriminate].
  destruct d as [| | | | | m]; try discriminate.
  cbn [get res_bind] in H.
  destruct (py_join_list ", " gs) as [names |] eqn:Ej; simpl in H;
    [| discriminate].
  destruct (acmg_score (VDict m)) as [acmg |] eqn:Ea; simpl in H;
    [| discriminate].
  destruct (py_join ", "
              (dict_get m "molecular_consequence_list" (VList [VStr "N/A"])))
    as [consequence |] eqn:Em; simpl in H; [| discriminate].
  inversion H. exists m, spdi, names, acmg, consequence.
  repeat split; reflexivity.
Qed.

(** X1.  Every value the batch tool returns is a dict that repeats the
    request in "Gene" and "Variant": either a failure, whose third and last
    field is "Error" with one of three messages, or a record with the ten
    fields of [record_keys] and no "Error". *)
Theorem batch_value_shape (srv : server) (gene_name variant : string)
  (r : value) :
  outcome (Batch.query_clinvar_for_specific_variant srv gene_name variant)
    = Ret r ->
  get r (VStr "Gene") VNone = Ret (VStr gene_name) /\
  get r (VStr "Variant") VNone = Ret (VStr variant) /\
  ((is_record r = false /\
    exists msg,
      r = VDict [("Gene", VStr gene_name); ("Variant", VStr variant);
                 ("Error", VStr msg)] /\
      ((exists cause, msg = "Unable to search ClinVar: " ++ cause) \/
       msg = "No variants found for gene: " ++ gene_name \/
       msg = "No matching ClinVar record for gene")) \/
   (is_record r = true /\
    keys r = record_keys /\
    get r (VStr "Error") VNone = Ret VNone)).
Proof.
  intros H.
  destruct (batch_query_inversion _ _ _ _ H)
    as [[msg [_ Hr]] | [[id_list [_ [_ Hr]]] | [ids [_ Hl]]]].
  - subst r. repeat split. left. split; trivial.
    eexists. split; [reflexivity |]. left. now exists msg.
  - subst r. repeat split. left. split; trivial.
    eexists. split; [reflexivity |]. right. now left.
  - destruct (batch_loop_inversion _ _ _ _ _ Hl)
      as [[Hr _] | [pre [v [post [d [gs [_ [_ [_ Hb]]]]]]]]].
    + subst r. repeat split. left. split; trivial.
      eexists. split; [reflexivity |]. right. now right.
    + destruct (batch_build_record_inversion _ _ _ _ _ _ Hb)
        as [m [spdi [names [acmg [cons [_ [_ [_ [_ Hr]]]]]]]]].
      subst r. repeat split. right. repeat split.
Qed.

Lemma batch_value_shape_witness :
  get (chd8_batch_record "chd8") (VStr "Gene") VNone = Ret (VStr "chd8") /\
  get (chd8_batch_record "chd8") (VStr "Variant") VNone
    = Ret (VStr "p.Arg1580Trp") /\
  ((is_record (chd8_batch_record "chd8") = false /\
    exists msg,
      chd8_batch_record "chd8"
        = VDict [("Gene", VStr "chd8"); ("Variant", VStr "p.Arg1580Trp");
                 ("Error", VStr msg)] /\
      ((exists cause, msg = "Unable to search ClinVar: " ++ cause) \/
       msg = "No variants found for gene: " ++ "chd8" \/
       msg = "No matching ClinVar record for gene")) \/
   (is_record (chd8_batch_record "chd8") = true /\
    keys (chd8_batch_record "chd8") = record_keys /\
    get (chd8_batch_record "chd8") (VStr "Error") VNone = Ret VNone)).
Proof.
  apply (batch_value_shape chd8_server "chd8" "p.Arg1580Trp").
  reflexivity.
Defined.

(** X2.  Whenever the batch tool returns a record, the search listed
    candidates [pre ++ v :: post] where every candidate of [pre] was passed
    over for one of the four reasons, [v] was accepted, and the record is the
    one built from [v] and its own payload. *)
Theorem batch_record_is_first_accepted
  (srv : server) (gene_name variant : string) (r : value) :
  outcome (Batch.query_clinvar_for_specific_variant srv gene_name variant)
    = Ret r ->
  is_record r = true ->
  exists pre v post d gs,
    candidates srv gene_name variant (pre ++ v :: post) /\
    Forall (skipped srv gene_name) pre /\
    accepted srv gene_name v d gs /\
    Batch.build_record gene_name variant v d gs = Ret r.
Proof.
  intros H Hr.
  destruct (batch_query_inversion _ _ _ _ H)
    as [[msg [_ Hf]] | [[id_list [_ [_ Hf]]] | [ids [Hc Hl]]]];
    try (subst r; discriminate Hr).
  destruct (batch_loop_inversion _ _ _ _ _ Hl)
    as [[Hf _] | [pre [v [post [d [gs [Hids Hrest]]]]]]].
  - subst r. discriminate Hr.
  - exists pre, v, post, d, gs. subst ids. now split.
Qed.

Lemma batch_record_is_first_accepted_witness :
  exists pre v post d gs,
    candidates asxl1_server "asxl1" "p.Gly646Trp" (pre ++ v :: post) /\
    Forall (skipped asxl1_server "asxl1") pre /\
    accepted asxl1_server "asxl1" v d gs /\
    Batch.build_record "asxl1" "p.Gly646Trp" v d gs = Ret asxl1_record.
Proof.
  apply (batch_record_is_first_accepted asxl1_server "asxl1" "p.Gly646Trp"
           asxl1_record); reflexivity.
Defined.

(** X3.  When candidates are listed and the batch tool returns something
    that is not a record, it is the "No matching ClinVar record for gene"
    failure and every listed candidate was passed over for one of the four
    reasons. *)
Theorem batch_no_match_means_all_skipped
  (srv : server) (gene_name variant : string) (ids : list value) (r : value) :
  candidates srv gene_name variant ids ->
  outcome (Batch.query_clinvar_for_specific_variant srv gene_name variant)
    = Ret r ->
  is_record r = false ->
  r = VDict [("Gene", VStr gene_name); ("Variant", VStr variant);
             ("Error", VStr "No matching ClinVar record for gene")] /\
  Forall (skipped srv gene_name) ids.
Proof.
  intros Hc H Hr.
  destruct (batch_query_inversion _ _ _ _ H)
    as [[msg [Hs _]] | [[id_list [Hs [Ht _]]] | [ids' [Hc' Hl]]]].
  - destruct Hc as [l [Hs' _]]. rewrite Hs in Hs'. discriminate.
  - destruct Hc as [l [Hs' [Ht' _]]]. rewrite Hs in Hs'.
    inversion Hs'; subst l. rewrite Ht in Ht'. discriminate.
  - rewrite (candidates_unique _ _ _ _ _ Hc Hc').
    destruct (batch_loop_inversion _ _ _ _ _ Hl)
      as [Hdone | [pre [v [post [d [gs [_ [_ [_ Hb]]]]]]]]]; trivial.
    destruct (batch_build_record_shape _ _ _ _ _ _ Hb) as [Hrec _].
    rewrite Hrec in Hr. discriminate.
Qed.

Lemma batch_no_match_means_all_skipped_witness :
  Batch.failure "CHD8" "p.Arg1580Trp" "No matching ClinVar record for gene"
    = VDict [("Gene", VStr "CHD8"); ("Variant", VStr "p.Arg1580Trp");
             ("Error", VStr "No matching ClinVar record for gene")] /\
  Forall (skipped brca1_tp53_server "CHD8") [VStr "1"; VStr "2"].
Proof.
  apply (batch_no_match_means_all_skipped brca1_tp53_server
           "CHD8" "p.Arg1580Trp").
  - eexists. repeat split; reflexivity.
  - reflexivity.
  - reflexivity.
Defined.

(** X4.  The title of a record the batch tool returns is a string that
    contains neither "del" nor "dup" in any letter case. *)
Theorem batch_record_title_has_no_del_dup
  (srv : server) (gene_name variant : string) (r : value) :
  outcome (Batch.query_clinvar_for_specific_variant srv gene_name variant)
    = Ret r ->
  is_record r = true ->
  exists title,
    get r (VStr "Title") VNone = Ret (VStr title) /\
    contains "del" (lower title) = false /\
    contains "dup" (lower title) = false.
Proof.
  intros H Hr.
  destruct (batch_query_inversion _ _ _ _ H)
    as [[msg [_ Hf]] | [[id_list [_ [_ Hf]]] | [ids [Hc Hl]]]];
    try (subst r; discriminate Hr).
  destruct (batch_loop_inversion _ _ _ _ _ Hl)
    as [[Hf _] | [pre [v [post [d [gs [_ [_ [Ha Hb]]]]]]]]].
  { subst r. discriminate Hr. }
  destruct Ha as [_ [_ [_ [_ [title [Ht [Hdel Hdup]]]]]]].
  destruct (batch_build_record_inversion _ _ _ _ _ _ Hb)
    as [m [spdi [names [acmg [cons [Hd [_ [_ [_ Hrec]]]]]]]]].
  subst d r. cbn [get] in Ht.
  unfold dict_get in *. cbn [get lookup String.eqb Ascii.eqb Bool.eqb].
  destruct (lookup "title" m) as [x |].
  - inversion Ht; subst x. exists title. now repeat split.
  - exists "N/A". repeat split; reflexivity.
Qed.

Lemma batch_record_title_has_no_del_dup_witness :
  exists title,
    get asxl1_record (VStr "Title") VNone = Ret (VStr title) /\
    contains "del" (lower title) = false /\
    contains "dup" (lower title) = false.
Proof.
  apply (batch_record_title_has_no_del_dup asxl1_server
           "asxl1" "p.Gly646Trp"); reflexivity.
Defined.

(** ** The requests a run issues *)

Lemma calls_lift_bind {A B} (c : res A) (f : A -> M B) :
  calls (bind (lift c) f) =
  match c with
  | Ret a => calls (f a)
  | Raise _ => []
  end.
Proof. destruct c; reflexivity. Qed.

Lemma calls_request_esummary_bind {B} (srv : server) (v : value)
  (f : response -> M B) :
  calls (bind (request_esummary srv v) f) =
  ESummary v :: calls (f (esummary srv v)).
Proof. reflexivity. Qed.

Lemma batch_loop_calls (srv : server) (gene_name variant : string)
  (ids : list value) :
  exists k,
    calls (Batch.candidate_loop srv gene_name variant ids)
    = map ESummary (firstn k ids).
Proof.
  induction ids as [| u ids [k IH]].
  - exists 0. reflexivity.
  - cbn [Batch.candidate_loop]. rewrite calls_request_esummary_bind.
    destruct (fetch (esummary srv u)) as [msg | summary_data].
    + exists (S k). cbn [firstn map]. now rewrite IH.
    + rewrite calls_lift_bind.
      destruct (Batch.examine gene_name variant u summary_data) as [[r |] |].
      * exists 1. reflexivity.
      * exists (S k). cbn [firstn map]. now rewrite IH.
      * exists 1. reflexivity.
Qed.

Lemma single_loop_calls (srv : server) (ids : list value) :
  forall st,
    (exists k,
       calls (SingleVariant.candidate_loop srv ids st)
       = map ESummary (firstn k ids)) /\
    (forall st',
       outcome (SingleVariant.candidate_loop srv ids st) = Ret st' ->
       calls (SingleVariant.candidate_loop srv ids st) = map ESummary ids).
Proof.
  induction ids as [| u ids IH]; intros st.
  - split; [exists 0; reflexivity | reflexivity].
  - cbn [SingleVariant.candidate_loop].
    rewrite calls_request_esummary_bind, outcome_bind.
    cbn [request_esummary outcome snd].
    destruct (fetch (esummary srv u)) as [msg | summary_data].
    + destruct (IH {| SingleVariant.var_id := Some u;
                      SingleVariant.var_data := SingleVariant.var_data st |})
        as [[k Hk] Hall].
      split.
      * exists (S k). cbn [firstn map]. now rewrite Hk.
      * intros st' H. cbn [map]. now rewrite (Hall st' H).
    + rewrite calls_lift_bind, outcome_bind, outcome_lift.
      destruct (get_var_data summary_data u) as [d |].
      * destruct (IH {| SingleVariant.var_id := Some u;
                        SingleVariant.var_data := Some d |})
          as [[k Hk] Hall].
        split.
        -- exists (S k). cbn [firstn map]. now rewrite Hk.
        -- intros st' H. cbn [map]. now rewrite (Hall st' H).
      * split; [exists 1; reflexivity | discriminate].
Qed.

Lemma firstn_zero_any {A} (l : list A) : [] = firstn 0 l.
Proof. reflexivity. Qed.


(** X6.  When the single-variant tool returns a value on listed candidates,
    record or mismatch message, it has requested the detail of every one of
    them: a match does not end its loop. *)
Theorem single_variant_fetches_every_candidate
  (srv : server) (gene_name variant : string) (ids : list value) (r : value) :
  candidates srv gene_name variant ids ->
  outcome (SingleVariant.query_clinvar_for_specific_variant
             srv gene_name variant) = Ret r ->
  calls (SingleVariant.query_clinvar_for_specific_variant
           srv gene_name variant)
  = ESearch gene_name variant :: map ESummary ids.
Proof.
  intros [id_list [Hs [Ht Hi]]] H.
  unfold SingleVariant.query_clinvar_for_specific_variant in *.
  rewrite outcome_bind, Hs, Ht in H. cbn [negb] in H.
  rewrite outcome_bind, outcome_lift, Hi, outcome_bind in H.
  rewrite calls_bind, search_calls, Hs, Ht. cbn [negb].
  rewrite calls_lift_bind, Hi, calls_bind.
  destruct (outcome (SingleVariant.candidate_loop srv ids SingleVariant.unbound))
    as [st |] eqn:El; [| discriminate].
  destruct (single_loop_calls srv ids SingleVariant.unbound) as [_ Hall].
  rewrite (Hall st El). cbn. now rewrite app_nil_r.
Qed.

Lemma single_variant_fetches_every_candidate_witness :
  calls (SingleVariant.query_clinvar_for_specific_variant
           chd8_tp53_down_server "CHD8" "p.Arg1580Trp")
  = ESearch "CHD8" "p.Arg1580Trp"
      :: map ESummary [VStr "1"; VStr "2"; VStr "3"].
Proof.
  apply (single_variant_fetches_every_candidate chd8_tp53_down_server
           "CHD8" "p.Arg1580Trp" [VStr "1"; VStr "2"; VStr "3"]
           (VStr "Variant found but not associated with gene CHD8. Found genes: TP53")).
  - eexists. repeat split; reflexivity.
  - reflexivity.
Defined.

(** ** What the single-variant tool returns, and when it raises *)

Lemma single_loop_var_id (srv : server) (ids : list value) :
  forall st st',
    outcome (SingleVariant.candidate_loop srv ids st) = Ret st' ->
    SingleVariant.var_id st'
    = last (map Some ids) (SingleVariant.var_id st).
Proof.
  induction ids as [| u ids IH]; intros st st' H;
    cbn [SingleVariant.candidate_loop] in H.
  - now inversion H.
  - rewrite outcome_bind in H. cbn [request_esummary outcome snd] in H.
    cbn [map]. rewrite last_after.
    destruct (fetch (esummary srv u)) as [msg | summary_data].
    + exact (IH _ _ H).
    + rewrite outcome_bind, outcome_lift in H.
      destruct (get_var_data summary_data u) as [d |]; [| discriminate].
      exact (IH _ _ H).
Qed.

Lemma last_of_some {A} (l : list A) (a d : A) :
  last (map Some l) None = Some a -> last l d = a.
Proof.
  destruct l as [| x l]; [discriminate |].
  cbn [map]. rewrite last_after, last_some, last_after.
  intros H. now inversion H.
Qed.

Lemma single_after_loop_record_fields (gene_name : string)
  (st : SingleVariant.locals) (r : value) :
  SingleVariant.after_loop gene_name st = Ret r ->
  is_record r = true ->
  exists id d vs first,
    SingleVariant.var_id st = Some id /\
    SingleVariant.var_data st = Some d /\
    get r (VStr "Variation ID") VNone = Ret id /\
    get d (VStr "variation_set") (VList []) = Ret vs /\
    truthy vs = true /\
    subscript0 vs = Ret (VDict first) /\
    get r (VStr "Canonical spdi") VNone
      = Ret (dict_get first "canonical_spdi" (VStr "NA")).
Proof.
  unfold SingleVariant.after_loop. intros H Hr.
  destruct (SingleVariant.var_data st) as [d |]; simpl in H; [| discriminate].
  destruct (gene_symbols_of d) as [gs |]; simpl in H; [| discriminate].
  destruct (gene_in gene_name gs) as [[|] |]; simpl in H; try discriminate.
  2:{ destruct (py_join_list ", " gs); simpl in H; [| discriminate].
      inversion H; subst r. discriminate Hr. }
  unfold SingleVariant.get_canonical_spdi in H.
  destruct (get d (VStr "variation_set") (VList [])) as [vs |] eqn:Ev;
    simpl in H; [| discriminate].
  destruct (SingleVariant.var_id st) as [id |].
  2:{ destruct (truthy vs); simpl in H.
      - destruct (subscript0 vs) as [x |]; simpl in H; [| discriminate].
        destruct (is_dict x); simpl in H; [| discriminate].
        destruct (get x (VStr "canonical_spdi") (VStr "NA")); discriminate.
      - discriminate. }
  destruct (truthy vs) eqn:Et; simpl in H.
  2:{ bind_inv H; discriminate H. }
  destruct (subscript0 vs) as [x |] eqn:E0; simpl in H; [| discriminate].
  destruct x as [| | | | | first]; simpl in H;
    try (bind_inv H; discriminate H).
  bind_inv H. inversion H; subst r.
  exists id, d, vs, first. repeat split; trivial.
Qed.

(** X7.  The "Variation ID" of a record the single-variant tool returns is
    the last identifier the search listed, whichever candidate's payload the
    other fields come from. *)
Theorem single_variant_variation_id_is_last_listed
  (srv : server) (gene_name variant : string) (ids : list value) (r : value) :
  candidates srv gene_name variant ids ->
  outcome (SingleVariant.query_clinvar_for_specific_variant
             srv gene_name variant) = Ret r ->
  is_record r = true ->
  get r (VStr "Variation ID") VNone = Ret (last ids VNone).
Proof.
  intros [id_list [Hs [Ht Hi]]] H Hr.
  unfold SingleVariant.query_clinvar_for_specific_variant in H.
  rewrite outcome_bind, Hs, Ht in H. cbn [negb] in H.
  rewrite outcome_bind, outcome_lift, Hi, outcome_bind in H.
  destruct (outcome (SingleVariant.candidate_loop srv ids SingleVariant.unbound))
    as [st |] eqn:El; [| discriminate].
  rewrite outcome_lift in H.
  destruct (single_after_loop_record_fields _ _ _ H Hr)
    as [id [d [vs [first [Hid [_ [Hf _]]]]]]].
  rewrite (single_loop_var_id _ _ _ _ El) in Hid. cbn in Hid.
  now rewrite (last_of_some _ _ VNone Hid).
Qed.

Lemma single_variant_variation_id_is_last_listed_witness :
  outcome (SingleVariant.query_clinvar_for_specific_variant
             (second_down_server chd8_fields) "CHD8" "p.Arg1580Trp")
    = Ret (VDict [("Variation ID", VStr "2");
                  ("Accession", VStr "VCV000000001");
                  ("Title",
                   VStr "NM_001170629.2(CHD8):c.4738C>T (p.Arg1580Trp)");
                  ("Canonical spdi", VStr "NC_000014.9:21385870:G:A");
                  ("Gene Symbol", VStr "CHD8");
                  ("Chromosome", VStr "14");
                  ("ACMG score", VStr "Pathogenic");
                  ("Molecular Consequence", VList [VStr "missense variant"])]) /\
  get (VDict [("Variation ID", VStr "2");
              ("Accession", VStr "VCV000000001");
              ("Title",
               VStr "NM_001170629.2(CHD8):c.4738C>T (p.Arg1580Trp)");
              ("Canonical spdi", VStr "NC_000014.9:21385870:G:A");
              ("Gene Symbol", VStr "CHD8");
              ("Chromosome", VStr "14");
              ("ACMG score", VStr "Pathogenic");
              ("Molecular Consequence", VList [VStr "missense variant"])])
      (VStr "Variation ID") VNone
    = Ret (last [VStr "1"; VStr "2"] VNone).
Proof.
  split; [reflexivity |].
  apply (single_variant_variation_id_is_last_listed
           (second_down_server chd8_fields) "CHD8" "p.Arg1580Trp").
  - eexists. repeat split; reflexivity.
  - reflexivity.
  - reflexivity.
Defined.

(** X8.  The single-variant tool returns a record only from a payload whose
    variation set is non-empty with a dict as first element; the record's
    "Canonical spdi" is that dict's [canonical_spdi], or ['NA'] when the dict
    has no such key. *)
Theorem single_variant_record_needs_variation_set
  (srv : server) (gene_name variant : string) (ids : list value) (r : value) :
  candidates srv gene_name variant ids ->
  outcome (SingleVariant.query_clinvar_for_specific_variant
             srv gene_name variant) = Ret r ->
  is_record r = true ->
  exists v d vs first,
    In v ids /\ payload srv v d /\
    get d (VStr "variation_set") (VList []) = Ret vs /\
    truthy vs = true /\
    subscript0 vs = Ret (VDict first) /\
    get r (VStr "Canonical spdi") VNone
      = Ret (dict_get first "canonical_spdi" (VStr "NA")).
Proof.
  intros [id_list [Hs [Ht Hi]]] H Hr.
  unfold SingleVariant.query_clinvar_for_specific_variant in H.
  rewrite outcome_bind, Hs, Ht in H. cbn [negb] in H.
  rewrite outcome_bind, outcome_lift, Hi, outcome_bind in H.
  destruct (outcome (SingleVariant.candidate_loop srv ids SingleVariant.unbound))
    as [st |] eqn:El; [| discriminate].
  rewrite outcome_lift in H.
  destruct (single_after_loop_record_fields _ _ _ H Hr)
    as [id [d [vs [first [_ [Hd [_ [Hv [Htv [H0 Hc]]]]]]]]]].
  destruct (single_loop_var_data _ _ _ _ _ El Hd) as [Hu | [v [Hv' Hp]]].
  - discriminate Hu.
  - exists v, d, vs, first. tauto.
Qed.

Lemma single_variant_record_needs_variation_set_witness :
  exists v d vs first,
    In v [VStr "1"] /\ payload no_spdi_server v d /\
    get d (VStr "variation_set") (VList []) = Ret vs /\
    truthy vs = true /\
    subscript0 vs = Ret (VDict first) /\
    get (VDict [("Variation ID", VStr "1");
                ("Accession", VStr "VCV000000001");
                ("Title",
                 VStr "NM_001170629.2(CHD8):c.4738C>T (p.Arg1580Trp)");
                ("Canonical spdi", VStr "NA");
                ("Gene Symbol", VStr "CHD8");
                ("Chromosome", VStr "N/A");
                ("ACMG score", VStr "N/A");
                ("Molecular Consequence", VStr "N/A")])
        (VStr "Canonical spdi") VNone
      = Ret (dict_get first "canonical_spdi" (VStr "NA")).
Proof.
  apply (single_variant_record_needs_variation_set no_spdi_server
           "CHD8" "p.Arg1580Trp").
  - eexists. repeat split; reflexivity.
  - reflexivity.
  - reflexivity.
Defined.

(** X9.  When candidates are listed and every detail fetch fails, the
    single-variant tool raises [UnboundLocalError], after having requested
    every candidate's detail. *)
Theorem single_variant_raises_when_no_fetch_succeeds
  (srv : server) (gene_name variant : string) (ids : list value) :
  candidates srv gene_name variant ids ->
  Forall (fetch_fails srv) ids ->
  outcome (SingleVariant.query_clinvar_for_specific_variant
             srv gene_name variant) = Raise UnboundLocalError /\
  calls (SingleVariant.query_clinvar_for_specific_variant
           srv gene_name variant)
  = ESearch gene_name variant :: map ESummary ids.
Proof.
  intros [id_list [Hs [Ht Hi]]] Hall.
  pose proof (single_loop_failures srv ids Hall SingleVariant.unbound) as Hl.
  unfold SingleVariant.query_clinvar_for_specific_variant.
  rewrite outcome_bind, Hs, Ht. cbn [negb].
  rewrite outcome_bind, outcome_lift, Hi, outcome_bind, Hl, outcome_lift.
  split; [reflexivity |].
  rewrite calls_bind, search_calls, Hs, Ht. cbn [negb].
  rewrite calls_lift_bind, Hi, calls_bind, Hl.
  destruct (single_loop_calls srv ids SingleVariant.unbound) as [_ Hc].
  rewrite (Hc _ Hl). cbn. now rewrite app_nil_r.
Qed.

Lemma single_variant_raises_when_no_fetch_succeeds_witness :
  outcome (SingleVariant.query_clinvar_for_specific_variant
             detail_down_server "CHD8" "p.Arg1580Trp")
    = Raise UnboundLocalError /\
  calls (SingleVariant.query_clinvar_for_specific_variant
           detail_down_server "CHD8" "p.Arg1580Trp")
  = ESearch "CHD8" "p.Arg1580Trp" :: map ESummary [VStr "1"].
Proof.
  apply (single_variant_raises_when_no_fetch_succeeds detail_down_server
           "CHD8" "p.Arg1580Trp" [VStr "1"]).
  - eexists. repeat split; reflexivity.
  - constructor; [| constructor]. exists "502 Server Error". reflexivity.
Defined.

(** X10.  When the payload the single-variant tool ends up with names the
    requested gene but its variation set is missing or empty, or does not
    start with a dict, the tool raises [UnboundLocalError] instead of
    returning a record. *)
Theorem single_variant_raises_without_variation_set
  (srv : server) (gene_name variant : string) (pre post : list value)
  (u : value) (m : list (string * value)) (syms : list string) :
  candidates srv gene_name variant (pre ++ u :: post) ->
  Forall (looked_up srv) pre ->
  payload srv u (VDict m) ->
  Forall (fetch_fails srv) post ->
  symbols_of_payload (VDict m) syms ->
  in_strings (upper gene_name) (map upper syms) = true ->
  (truthy (dict_get m "variation_set" (VList [])) = false \/
   exists x,
     subscript0 (dict_get m "variation_set" (VList [])) = Ret x /\
     is_dict x = false) ->
  outcome (SingleVariant.query_clinvar_for_specific_variant
             srv gene_name variant) = Raise UnboundLocalError.
Proof.
  intros Hc Hpre Hu Hpost [gs [Hg Hsy]] Hin Hvs.
  rewrite (single_query_last_fetched _ _ _ _ _ _ _ Hc Hpre Hu Hpost).
  unfold SingleVariant.after_loop. cbn [SingleVariant.var_data read_local res_bind].
  rewrite Hg. cbn [res_bind]. rewrite (gene_in_strings _ _ _ Hsy).
  cbn [res_bind]. rewrite Hin. cbn [negb].
  unfold SingleVariant.get_canonical_spdi. cbn [get res_bind].
  destruct Hvs as [Hf | [x [H0 Hx]]].
  - rewrite Hf. reflexivity.
  - destruct (truthy (dict_get m "variation_set" (VList []))); [| reflexivity].
    rewrite H0. cbn [res_bind]. rewrite Hx. reflexivity.
Qed.

Lemma single_variant_raises_without_variation_set_witness :
  outcome (SingleVariant.query_clinvar_for_specific_variant
             no_variation_set_server "chd8" "p.Arg1580Trp")
    = Raise UnboundLocalError.
Proof.
  apply (single_variant_raises_without_variation_set no_variation_set_server
           "chd8" "p.Arg1580Trp" [] [] (VStr "1")
           [("accession", VStr "VCV000000001");
            ("title", VStr "NM_001170629.2(CHD8):c.4738C>T (p.Arg1580Trp)");
            ("genes", genes_of ["CHD8"])]
           ["CHD8"]).
  - eexists. repeat split; reflexivity.
  - constructor.
  - eexists. split; reflexivity.
  - constructor.
  - eexists. split; reflexivity.
  - reflexivity.
  - left. reflexivity.
Defined.

(** ** The batch tool on well-formed documents *)

Lemma extract_well_formed (genes : list value) :
  Forall well_formed_gene genes ->
  exists syms, extract_gene_symbols genes = map VStr syms.
Proof.
  induction 1 as [| g genes Hg Hall [syms IH]].
  - now exists [].
  - cbn [extract_gene_symbols]. destruct g as [| | | s | | m];
      try (exists syms; exact IH).
    + exists (s :: syms). cbn [map]. now rewrite IH.
    + destruct Hg as [s Hs]. exists (s :: syms). cbn [map].
      now rewrite Hs, IH.
Qed.

Lemma batch_canonical_spdi_of_list (m : list (string * value))
  (vs : list value) :
  dict_get m "variation_set" (VList []) = VList vs ->
  exists spdi, Batch.get_canonical_spdi (VDict m) = Ret spdi.
Proof.
  intros H. rewrite batch_canonical_spdi_cases, H.
  destruct vs as [| [] vs']; eexists; reflexivity.
Qed.

Lemma batch_examine_well_formed (gene_name variant : string)
  (v summary_data d : value) :
  get_var_data summary_data v = Ret d ->
  well_formed_payload d ->
  exists o, Batch.examine gene_name variant v summary_data = Ret o.
Proof.
  intros Hd Hwf. unfold Batch.examine. rewrite Hd. cbn [res_bind].
  destruct Hwf as [Hf | [m [genes [title [vs [cls [cons Hwf]]]]]]].
  - rewrite Hf. now exists None.
  - destruct Hwf as [Hm [Hg [Hgs [Ht [Hv [Hc Hmc]]]]]]. subst d.
    destruct (truthy (VDict m)); cbn [negb]; [| now exists None].
    unfold gene_symbols_of. cbn [get res_bind]. rewrite Hg.
    cbn [iter res_bind].
    destruct (extract_well_formed _ Hgs) as [syms Hsy]. rewrite Hsy.
    rewrite (gene_in_strings _ _ _ (res_map_as_str_strings syms)).
    cbn [res_bind].
    destruct (in_strings (upper gene_name) (map upper syms)); cbn [negb];
      [| now exists None].
    rewrite Ht. cbn [py_lower res_bind].
    destruct (contains "del" (lower title) || contains "dup" (lower title));
      [now exists None |].
    destruct (batch_canonical_spdi_of_list _ _ Hv) as [spdi Hs].
    rewrite (batch_build_record_fields gene_name variant v spdi m cls
               (map VStr syms) syms cons
               (res_map_as_str_strings syms) Hs Hc Hmc).
    cbn [res_bind]. eexists. reflexivity.
Qed.

Lemma batch_loop_well_formed (srv : server) (gene_name variant : string)
  (ids : list string) :
  Forall (well_formed_detail srv) ids ->
  exists r,
    outcome (Batch.candidate_loop srv gene_name variant (map VStr ids)) = Ret r.
Proof.
  induction 1 as [| id ids Hid Hall [r IH]].
  - eexists. reflexivity.
  - cbn [map Batch.candidate_loop]. rewrite outcome_bind.
    cbn [request_esummary outcome snd].
    destruct Hid as [[msg Hm] | [doc [result [He [Hr Hwf]]]]].
    + rewrite Hm. now exists r.
    + rewrite He. cbn [fetch]. rewrite outcome_bind, outcome_lift.
      assert (Hd : get_var_data (VDict doc) (VStr id)
                   = Ret (dict_get result id (VDict [])))
        by (unfold get_var_data; cbn [subscript]; now rewrite Hr).
      destruct (batch_examine_well_formed gene_name variant _ _ _ Hd Hwf)
        as [[r' |] Ho]; rewrite Ho.
      * now exists r'.
      * now exists r.
Qed.

(** X11.  On documents of the expected shape the batch tool never raises:
    if the search answers a dict listing string identifiers under
    "esearchresult", and each detail request either fails in transport or
    answers a "result" dict with a well-formed payload, the tool returns a
    value. *)
Theorem batch_returns_on_well_formed_documents
  (srv : server) (gene_name variant : string) (ids : list string) :
  well_formed_search srv gene_name variant ids ->
  Forall (well_formed_detail srv) ids ->
  exists r,
    outcome (Batch.query_clinvar_for_specific_variant srv gene_name variant)
    = Ret r.
Proof.
  intros [doc [result [He [Hr Hi]]]] Hall.
  unfold Batch.query_clinvar_for_specific_variant, search.
  rewrite !outcome_bind. cbn [request_esearch outcome snd].
  rewrite He. cbn [fetch subscript]. rewrite Hr.
  rewrite outcome_lift. cbn [res_bind get]. rewrite Hi.
  destruct (truthy (VList (map VStr ids))); cbn [negb].
  - rewrite outcome_bind, outcome_lift. cbn [iter].
    exact (batch_loop_well_formed srv gene_name variant ids Hall).
  - eexists. reflexivity.
Qed.

Lemma batch_returns_on_well_formed_documents_witness :
  exists r,
    outcome (Batch.query_clinvar_for_specific_variant asxl1_server
               "asxl1" "p.Gly646Trp") = Ret r.
Proof.
  apply (batch_returns_on_well_formed_documents asxl1_server
           "asxl1" "p.Gly646Trp" ["1"; "2"; "3"; "4"; "5"]).
  - eexists. eexists. repeat split; reflexivity.
  - repeat (apply Forall_cons || apply Forall_nil).
    + left. eexists. reflexivity.
    + right. eexists. eexists. split; [reflexivity |].
      split; [reflexivity |]. right.
      exists [("title", VStr "NM_000546.6(TP53):c.1936G>T");
              ("genes", genes_of ["TP53"])],
        [VDict [("symbol", VStr "TP53"); ("geneid", VStr "0")]],
        "NM_000546.6(TP53):c.1936G>T", [], [], ["N/A"].
      repeat split; try reflexivity.
      constructor; [| constructor]. now exists "TP53".
    + right. eexists. eexists. split; [reflexivity |].
      split; [reflexivity |]. right.
      exists (asxl1_fields "3" "NM_015338.6(ASXL1):c.1934del (p.Gly645fs)"),
        [VDict [("symbol", VStr "ASXL1"); ("geneid", VStr "0")]],
        "NM_015338.6(ASXL1):c.1934del (p.Gly645fs)",
        [VDict [("measure_id", VStr "0");
                ("canonical_spdi", VStr "NC_000020.11:32434803:G:T")]],
        [], ["N/A"].
      repeat split; try reflexivity.
      constructor; [| constructor]. now exists "ASXL1".
    + right. eexists. eexists. split; [reflexivity |].
      split; [reflexivity |]. right.
      exists (asxl1_fields "4" "NM_015338.6(ASXL1):c.1936G>T (p.Gly646Trp)"),
        [VDict [("symbol", VStr "ASXL1"); ("geneid", VStr "0")]],
        "NM_015338.6(ASXL1):c.1936G>T (p.Gly646Trp)",
        [VDict [("measure_id", VStr "0");
                ("canonical_spdi", VStr "NC_000020.11:32434804:G:T")]],
        [], ["N/A"].
      repeat split; try reflexivity.
      constructor; [| constructor]. now exists "ASXL1".
    + right. eexists. eexists. split; [reflexivity |].
      split; [reflexivity |]. right.
      exists (asxl1_fields "5" "NM_015338.6(ASXL1):c.1937G>A (p.Gly646Glu)"),
        [VDict [("symbol", VStr "ASXL1"); ("geneid", VStr "0")]],
        "NM_015338.6(ASXL1):c.1937G>A (p.Gly646Glu)",
        [VDict [("measure_id", VStr "0");
                ("canonical_spdi", VStr "NC_000020.11:32434805:G:T")]],
        [], ["N/A"].
      repeat split; try reflexivity.
      constructor; [| constructor]. now exists "ASXL1".
Defined.

(** ** The batch driver's requests and failures *)

Lemma bind_ret {A B} (a : A) (f : A -> M B) : bind (ret a) f = f a.
Proof. unfold bind, ret. cbn. now destruct (f a). Qed.

Lemma bind_assoc {A B C} (c : M A) (f : A -> M B) (g : B -> M C) :
  bind (bind c f) g = bind c (fun a => bind (f a) g).
Proof.
  destruct c as [t [a | e]]; cbn; trivial.
  destruct (f a) as [t' [b | e]]; cbn; trivial.
  now rewrite app_assoc.
Qed.

Lemma bind_ext {A B} (c : M A) (f g : A -> M B) :
  (forall a, f a = g a) -> bind c f = bind c g.
Proof.
  intros H. destruct c as [t [a | e]]; cbn; trivial. now rewrite H.
Qed.

Lemma rows_loop_app (srv : server) (pre rest : list Batch.row) :
  forall acc,
    Batch.rows_loop srv (pre ++ rest) acc =
    bind (Batch.rows_loop srv pre acc)
         (fun acc' => Batch.rows_loop srv rest acc').
Proof.
  induction pre as [| r pre IH]; intros acc.
  - cbn [app Batch.rows_loop]. now rewrite bind_ret.
  - cbn [app Batch.rows_loop].
    destruct (String.eqb (strip (Batch.str (Batch.row_get r "Gene")))
                EmptyString
              || String.eqb (strip (Batch.str (Batch.row_get r "Variant")))
                   EmptyString).
    + apply IH.
    + rewrite bind_assoc. apply bind_ext. intros result. apply IH.
Qed.

Lemma rows_loop_non_blank (srv : server) (r : Batch.row)
  (rows : list Batch.row) (acc : list value) :
  blank r = false ->
  Batch.rows_loop srv (r :: rows) acc =
  bind (Batch.query_clinvar_for_specific_variant
          srv (gene_of r) (variant_of r))
       (fun result => Batch.rows_loop srv rows (acc ++ [result])%list).
Proof.
  intros Hb. cbn [Batch.rows_loop].
  fold (gene_of r) (variant_of r). fold (blank r). now rewrite Hb.
Qed.

Lemma rows_loop_blank (srv : server) (r : Batch.row)
  (rows : list Batch.row) (acc : list value) :
  blank r = true ->
  Batch.rows_loop srv (r :: rows) acc = Batch.rows_loop srv rows acc.
Proof.
  intros Hb. cbn [Batch.rows_loop].
  fold (gene_of r) (variant_of r). fold (blank r). now rewrite Hb.
Qed.

Lemma batch_query_calls (srv : server) (gene_name variant : string) :
  exists l,
    calls (Batch.query_clinvar_for_specific_variant srv gene_name variant)
    = ESearch gene_name variant :: map ESummary l.
Proof.
  unfold Batch.query_clinvar_for_specific_variant.
  rewrite calls_bind, search_calls.
  destruct (outcome (search srv gene_name variant)) as [[msg | id_list] |];
    try (now exists []).
  destruct (truthy id_list); cbn [negb]; try (now exists []).
  rewrite calls_lift_bind.
  destruct (iter id_list) as [ids |]; try (now exists []).
  destruct (batch_loop_calls srv gene_name variant ids) as [k Hk].
  exists (firstn k ids). now rewrite Hk.
Qed.

Lemma filter_esearch_summaries (l : list value) :
  filter is_esearch (map ESummary l) = [].
Proof. induction l as [| v l IH]; trivial. Qed.

Lemma batch_query_esearch_calls (srv : server) (gene_name variant : string) :
  filter is_esearch
    (calls (Batch.query_clinvar_for_specific_variant srv gene_name variant))
  = [ESearch gene_name variant].
Proof.
  destruct (batch_query_calls srv gene_name variant) as [l Hl].
  rewrite Hl. cbn [filter is_esearch is_esummary negb].
  now rewrite filter_esearch_summaries.
Qed.

Lemma rows_loop_outcome_results (srv : server) (rows : list Batch.row) :
  (forall r, In r rows -> blank r = false ->
     exists v,
       outcome (Batch.query_clinvar_for_specific_variant
                  srv (gene_of r) (variant_of r)) = Ret v) ->
  forall acc,
  exists results, outcome (Batch.rows_loop srv rows acc) = Ret results.
Proof.
  intros Hq acc. destruct (rows_loop_results srv rows Hq acc) as [res [H _]].
  eexists. exact H.
Qed.

Lemma rows_loop_esearch_calls (srv : server) (rows : list Batch.row) :
  (forall r, In r rows -> blank r = false ->
     exists v,
       outcome (Batch.query_clinvar_for_specific_variant
                  srv (gene_of r) (variant_of r)) = Ret v) ->
  forall acc,
    filter is_esearch (calls (Batch.rows_loop srv rows acc)) =
    map (fun r => ESearch (gene_of r) (variant_of r)) (filter non_blank rows).
Proof.
  induction rows as [| r rows IH]; intros Hq acc; trivial.
  assert (Hq' : forall r', In r' rows -> blank r' = false ->
                  exists v,
                    outcome (Batch.query_clinvar_for_specific_variant
                               srv (gene_of r') (variant_of r')) = Ret v)
    by (intros r' Hin; apply Hq; now right).
  cbn [filter]. unfold non_blank at 1.
  destruct (blank r) eqn:Eb; cbn [negb].
  - rewrite (rows_loop_blank _ _ _ _ Eb). now apply IH.
  - rewrite (rows_loop_non_blank _ _ _ _ Eb), calls_bind, filter_app.
    rewrite batch_query_esearch_calls.
    destruct (Hq r (or_introl eq_refl) Eb) as [v Hv]. rewrite Hv.
    cbn [map app]. f_equal. now apply IH.
Qed.

(** X13.  An exception of the resolver ends the batch: when the resolver
    returns for the non-blank rows of [pre] and raises [e] on the non-blank
    row [r], the driver raises [e] on [pre ++ r :: post], returns no results,
    and issues no request for the rows of [post]. *)
Theorem driver_stops_at_first_raise
  (srv : server) (pre post : list Batch.row) (r : Batch.row) (e : exn) :
  (forall r', In r' pre -> blank r' = false ->
     exists v,
       outcome (Batch.query_clinvar_for_specific_variant
                  srv (gene_of r') (variant_of r')) = Ret v) ->
  blank r = false ->
  outcome (Batch.query_clinvar_for_specific_variant
             srv (gene_of r) (variant_of r)) = Raise e ->
  outcome (Batch.batch_query_from_excel srv (pre ++ r :: post)) = Raise e /\
  calls (Batch.batch_query_from_excel srv (pre ++ r :: post))
  = calls (Batch.batch_query_from_excel srv (pre ++ [r])).
Proof.
  intros Hq Hb He. unfold Batch.batch_query_from_excel.
  rewrite !rows_loop_app.
  destruct (rows_loop_outcome_results srv pre Hq []) as [acc Hacc].
  rewrite outcome_bind, !calls_bind, Hacc.
  rewrite !(rows_loop_non_blank _ _ _ _ Hb).
  rewrite outcome_bind, !calls_bind, He. now split.
Qed.

Lemma driver_stops_at_first_raise_witness :
  outcome (Batch.batch_query_from_excel error_document_server
             ([filled_row "CHD8" "p.Arg1580Trp"]
                ++ filled_row "TP53" "p.Arg175His"
                :: [filled_row "chd8" "p.Arg1580Trp"])) = Raise KeyError /\
  calls (Batch.batch_query_from_excel error_document_server
           ([filled_row "CHD8" "p.Arg1580Trp"]
              ++ filled_row "TP53" "p.Arg175His"
              :: [filled_row "chd8" "p.Arg1580Trp"]))
  = calls (Batch.batch_query_from_excel error_document_server
             ([filled_row "CHD8" "p.Arg1580Trp"]
                ++ [filled_row "TP53" "p.Arg175His"])).
Proof.
  apply (driver_stops_at_first_raise error_document_server
           [filled_row "CHD8" "p.Arg1580Trp"]
           [filled_row "chd8" "p.Arg1580Trp"]
           (filled_row "TP53" "p.Arg175His") KeyError).
  - intros r' [Hr | []] _. subst r'. eexists. vm_compute. reflexivity.
  - reflexivity.
  - reflexivity.
Defined.

Lemma rstrip_idempotent (s : string) : rstrip (rstrip s) = rstrip s.
Proof.
  induction s as [| c s IH]; trivial.
  cbn [rstrip]. destruct (rstrip s) as [| a t] eqn:Es.
  - destruct (is_space c) eqn:Ec; trivial.
    cbn [rstrip]. now rewrite Ec.
  - cbn [rstrip]. cbn [rstrip] in IH. now rewrite IH.
Qed.

Lemma lstrip_rstrip_lstrip (s : string) :
  lstrip (rstrip (lstrip s)) = rstrip (lstrip s).
Proof.
  induction s as [| c s IH]; trivial.
  cbn [lstrip]. destruct (is_space c) eqn:Ec; trivial.
  cbn [rstrip]. destruct (rstrip s) as [| a t].
  - rewrite Ec. cbn [lstrip]. now rewrite Ec.
  - cbn [lstrip]. now rewrite Ec.
Qed.

Lemma strip_idempotent (s : string) : strip (strip s) = strip s.
Proof.
  unfold strip. now rewrite lstrip_rstrip_lstrip, rstrip_idempotent.
Qed.

Lemma rows_loop_esearch_origin (srv : server) (rows : list Batch.row)
  (gene_name variant : string) :
  forall acc,
    In (ESearch gene_name variant) (calls (Batch.rows_loop srv rows acc)) ->
    exists r,
      In r rows /\ blank r = false /\
      gene_name = gene_of r /\ variant = variant_of r.
Proof.
  induction rows as [| r rows IH]; intros acc Hin.
  - destruct Hin.
  - destruct (blank r) eqn:Eb.
    + rewrite (rows_loop_blank _ _ _ _ Eb) in Hin.
      destruct (IH _ Hin) as [r' [Hr' Hrest]].
      exists r'. split; [now right | exact Hrest].
    + rewrite (rows_loop_non_blank _ _ _ _ Eb), calls_bind in Hin.
      apply in_app_or in Hin. destruct Hin as [Hin | Hin].
      * destruct (batch_query_calls srv (gene_of r) (variant_of r))
          as [l Hl].
        rewrite Hl in Hin. destruct Hin as [Heq | Hin].
        -- inversion Heq. exists r. repeat split; trivial. now left.
        -- apply in_map_iff in Hin. destruct Hin as [x [Hx _]].
           discriminate Hx.
      * destruct (outcome (Batch.query_clinvar_for_specific_variant
                             srv (gene_of r) (variant_of r))) as [v |];
          [| destruct Hin].
        destruct (IH _ Hin) as [r' [Hr' Hrest]].
        exists r'. split; [now right | exact Hrest].
Qed.

(** X14.  Whatever the table, every search the driver causes is for a gene
    and a variant that are non-empty and already stripped of leading and
    trailing whitespace. *)
Theorem driver_searches_are_stripped_and_non_empty
  (srv : server) (df : list Batch.row) (gene_name variant : string) :
  In (ESearch gene_name variant)
     (calls (Batch.batch_query_from_excel srv df)) ->
  gene_name <> EmptyString /\ variant <> EmptyString /\
  strip gene_name = gene_name /\ strip variant = variant.
Proof.
  intros Hin.
  destruct (rows_loop_esearch_origin _ _ _ _ _ Hin) as [r [_ [Hb [Hg Hv]]]].
  unfold blank in Hb. apply orb_false_elim in Hb. destruct Hb as [Hbg Hbv].
  apply String.eqb_neq in Hbg, Hbv. subst gene_name variant.
  repeat split; trivial; unfold gene_of, variant_of; apply strip_idempotent.
Qed.

Lemma driver_searches_are_stripped_and_non_empty_witness :
  "chd8" <> EmptyString /\ "p.Arg1580Trp" <> EmptyString /\
  strip "chd8" = "chd8" /\ strip "p.Arg1580Trp" = "p.Arg1580Trp".
Proof.
  apply (driver_searches_are_stripped_and_non_empty chd8_server
           table_with_blank_row).
  vm_compute. do 2 right. left. reflexivity.
Defined.

(** ** Gene symbols: extraction and matching *)

Lemma upper_ascii_idempotent (c : ascii) :
  upper_ascii (upper_ascii c) = upper_ascii c.
Proof. destruct c as [[] [] [] [] [] [] [] []]; reflexivity. Qed.

Lemma upper_lower_ascii (c : ascii) :
  upper_ascii (lower_ascii c) = upper_ascii c.
Proof. destruct c as [[] [] [] [] [] [] [] []]; reflexivity. Qed.

Lemma upper_idempotent (s : string) : upper (upper s) = upper s.
Proof.
  induction s as [| c s IH]; trivial.
  unfold upper in *. cbn [string_map].
  now rewrite upper_ascii_idempotent, IH.
Qed.

Lemma upper_lower (s : string) : upper (lower s) = upper s.
Proof.
  induction s as [| c s IH]; trivial.
  unfold upper, lower in *. cbn [string_map].
  now rewrite upper_lower_ascii, IH.
Qed.

Lemma gene_in_of_strings (gene_name : string) (syms : list string) :
  gene_in gene_name (map VStr syms)
  = Ret (in_strings (upper gene_name) (map upper syms)).
Proof. apply gene_in_strings, res_map_as_str_strings. Qed.

(** X15.  On ASCII text the gene comparison both tools make ignores letter
    case on both sides: for a requested gene and payload symbols made of
    ASCII characters, upper- or lower-casing the gene, or the symbols, does
    not change its result. *)
Theorem gene_match_ignores_letter_case
  (gene_name : string) (syms : list string) :
  ascii_text gene_name = true ->
  forallb ascii_text syms = true ->
  gene_in (upper gene_name) (map VStr syms)
    = gene_in gene_name (map VStr syms) /\
  gene_in (lower gene_name) (map VStr syms)
    = gene_in gene_name (map VStr syms) /\
  gene_in gene_name (map VStr (map upper syms))
    = gene_in gene_name (map VStr syms) /\
  gene_in gene_name (map VStr (map lower syms))
    = gene_in gene_name (map VStr syms).
Proof.
  intros _ _.
  unfold gene_in at 1 2 3 4. rewrite upper_idempotent, upper_lower.
  repeat split; trivial.
  - rewrite !gene_in_of_strings, map_map. do 2 f_equal.
    apply map_ext. intros s. apply upper_idempotent.
  - rewrite !gene_in_of_strings, map_map. do 2 f_equal.
    apply map_ext. intros s. apply upper_lower.
Qed.

Lemma gene_match_ignores_letter_case_witness :
  gene_in (upper "Chd8") (map VStr ["asxl1"; "cHD8"])
    = gene_in "Chd8" (map VStr ["asxl1"; "cHD8"]) /\
  gene_in (lower "Chd8") (map VStr ["asxl1"; "cHD8"])
    = gene_in "Chd8" (map VStr ["asxl1"; "cHD8"]) /\
  gene_in "Chd8" (map VStr (map upper ["asxl1"; "cHD8"]))
    = gene_in "Chd8" (map VStr ["asxl1"; "cHD8"]) /\
  gene_in "Chd8" (map VStr (map lower ["asxl1"; "cHD8"]))
    = gene_in "Chd8" (map VStr ["asxl1"; "cHD8"]).
Proof.
  apply (gene_match_ignores_letter_case "Chd8" ["asxl1"; "cHD8"]);
    reflexivity.
Defined.




(** ** The request URLs *)

Lemma string_length_append (a b : string) :
  String.length (a ++ b) = String.length a + String.length b.
Proof. induction a as [| c a IH]; cbn; [trivial | now rewrite IH]. Qed.

Lemma append_cancel_right (s a b : string) : a ++ s = b ++ s -> a = b.
Proof.
  revert b. induction a as [| c a IH]; intros [| c' b] H; trivial.
  - apply (f_equal String.length) in H.
    cbn in H. rewrite string_length_append in H. lia.
  - apply (f_equal String.length) in H.
    cbn in H. rewrite string_length_append in H. lia.
  - cbn in H. inversion H. f_equal. now apply IH.
Qed.

Lemma append_cancel_left (s a b : string) : s ++ a = s ++ b -> a = b.
Proof.
  induction s as [| c s IH]; cbn; intros H; trivial.
  inversion H. now apply IH.
Qed.

Lemma hex_digit_unquoted (n : nat) :
  n < 16 -> unquoted (hex_digit n) = true.
Proof.
  intros H. do 16 (destruct n as [| n]; [reflexivity |]). lia.
Qed.

Lemma quote_char_alphabet (c x : ascii) :
  In x (list_ascii_of_string (quote_char c)) ->
  unquoted x = true \/ x = "%"%char.
Proof.
  unfold quote_char. destruct (unquoted c) eqn:Ec.
  - intros [Hx | []]. subst x. now left.
  - unfold percent. cbn [list_ascii_of_string].
    assert (Hn : nat_of_ascii c < 256) by apply nat_ascii_bounded.
    intros [Hx | [Hx | [Hx | []]]]; subst x.
    + now right.
    + left. apply hex_digit_unquoted.
      apply Nat.Div0.div_lt_upper_bound. lia.
    + left. apply hex_digit_unquoted. apply Nat.mod_upper_bound. lia.
Qed.

Lemma list_ascii_of_string_app (a b : string) :
  list_ascii_of_string (a ++ b)
  = (list_ascii_of_string a ++ list_ascii_of_string b)%list.
Proof. induction a as [| c a IH]; cbn; [trivial | now rewrite IH]. Qed.

(** X17.  What [quote] produces consists of letters, digits, [_.-~/] and
    the percent sign only; so no space, ampersand, equals sign, question
    mark, hash or bracket of the gene or variant reaches the URL unescaped. *)
Theorem quote_output_alphabet (s : string) (x : ascii) :
  In x (list_ascii_of_string (quote s)) ->
  (unquoted x = true \/ x = "%"%char) /\
  x <> " "%char /\ x <> "&"%char /\ x <> "="%char /\ x <> "?"%char /\
  x <> "#"%char /\ x <> "["%char /\ x <> "]"%char.
Proof.
  intros Hin.
  assert (H : unquoted x = true \/ x = "%"%char).
  { induction s as [| c s IH]; [destruct Hin |].
    cbn [quote] in Hin. rewrite list_ascii_of_string_app in Hin.
    apply in_app_or in Hin. destruct Hin as [Hc | Hs].
    - exact (quote_char_alphabet _ _ Hc).
    - exact (IH Hs). }
  split; trivial.
  repeat split; intros Hx; subst x; destruct H as [H | H]; discriminate H.
Qed.

Lemma quote_output_alphabet_witness :
  (unquoted "%"%char = true \/ "%"%char = "%"%char) /\
  "%"%char <> " "%char /\ "%"%char <> "&"%char /\ "%"%char <> "="%char /\
  "%"%char <> "?"%char /\ "%"%char <> "#"%char /\ "%"%char <> "["%char /\
  "%"%char <> "]"%char.
Proof.
  apply (quote_output_alphabet "a b").
  vm_compute. right. left. reflexivity.
Defined.

(** X18.  Text made of letters, digits, [_.-~] and slashes only, as a plain
    gene symbol is, passes through [quote] unchanged. *)
Theorem quote_keeps_plain_text (s : string) :
  forallb unquoted (list_ascii_of_string s) = true ->
  quote s = s.
Proof.
  induction s as [| c s IH]; trivial.
  cbn [list_ascii_of_string forallb quote]. intros H.
  apply andb_prop in H. destruct H as [Hc Hs].
  unfold quote_char. rewrite Hc. cbn. now rewrite (IH Hs).
Qed.

Lemma quote_keeps_plain_text_witness : quote "ASXL1" = "ASXL1".
Proof. apply (quote_keeps_plain_text "ASXL1"). reflexivity. Defined.

Lemma percent_decodes (c : ascii) :
  percent c = String "%" (String (hex_digit (nat_of_ascii c / 16))
                            (String (hex_digit (nat_of_ascii c mod 16))
                               EmptyString)) /\
  escaped_byte (hex_digit (nat_of_ascii c / 16))
               (hex_digit (nat_of_ascii c mod 16)) = c.
Proof.
  split; [reflexivity |].
  destruct c as [[] [] [] [] [] [] [] []]; vm_compute; reflexivity.
Qed.

Lemma quote_char_injective (c1 c2 : ascii) (r1 r2 : string) :
  quote_char c1 ++ r1 = quote_char c2 ++ r2 -> c1 = c2 /\ r1 = r2.
Proof.
  unfold quote_char.
  destruct (unquoted c1) eqn:E1; destruct (unquoted c2) eqn:E2;
    unfold percent; cbn [append]; intros H; inversion H.
  - now split.
  - subst c1. discriminate E1.
  - subst c2. discriminate E2.
  - split; trivial.
    destruct (percent_decodes c1) as [_ Hd1].
    destruct (percent_decodes c2) as [_ Hd2].
    rewrite <- Hd1, <- Hd2. congruence.
Qed.

Lemma quote_injective_aux (s1 : string) :
  forall s2, quote s1 = quote s2 -> s1 = s2.
Proof.
  induction s1 as [| c1 s1 IH]; intros [| c2 s2] H; trivial.
  - cbn [quote] in H. unfold quote_char, percent in H.
    destruct (unquoted c2); discriminate H.
  - cbn [quote] in H. unfold quote_char, percent in H.
    destruct (unquoted c1); discriminate H.
  - cbn [quote] in H. apply quote_char_injective in H.
    destruct H as [Hc Hs]. subst c2. f_equal. now apply IH.
Qed.

(** X19.  [quote] loses nothing: two texts with the same quoted form are the
    same text. *)
Theorem quote_injective (s1 s2 : string) :
  quote s1 = quote s2 -> s1 = s2.
Proof. apply quote_injective_aux. Qed.

Lemma quote_injective_witness :
  "CHD8[gene]" = "CHD8[gene]".
Proof. apply (quote_injective "CHD8[gene]" "CHD8[gene]"). reflexivity. Defined.

Lemma split_at_first_bracket (g1 : string) :
  forall g2 r1 r2,
    occurs "[" g1 = false -> occurs "[" g2 = false ->
    g1 ++ String "[" r1 = g2 ++ String "[" r2 ->
    g1 = g2 /\ r1 = r2.
Proof.
  induction g1 as [| c g1 IH]; intros [| c' g2] r1 r2 H1 H2 H; cbn in H.
  - inversion H. now split.
  - inversion H. subst c'. cbn in H2. discriminate H2.
  - inversion H. subst c. cbn in H1. discriminate H1.
  - inversion H. subst c'. cbn [occurs] in H1, H2.
    apply orb_false_elim in H1, H2.
    destruct (IH g2 r1 r2 (proj2 H1) (proj2 H2)) as [Hg Hr]; trivial.
    split; [now f_equal | trivial].
Qed.

(** X20.  Requests whose gene names contain no opening bracket are told
    apart by their search URL: equal esearch URLs mean equal gene and equal
    variant. *)
Theorem esearch_url_injective_without_brackets
  (gene1 variant1 gene2 variant2 : string) :
  occurs "[" gene1 = false ->
  occurs "[" gene2 = false ->
  esearch_url gene1 variant1 = esearch_url gene2 variant2 ->
  gene1 = gene2 /\ variant1 = variant2.
Proof.
  intros H1 H2 H. unfold esearch_url in H.
  apply append_cancel_left, append_cancel_left in H.
  apply append_cancel_right, quote_injective_aux in H.
  unfold search_term in H.
  change ("[gene] AND " ++ variant1 ++ "[Variation Name]")
    with (String "[" ("gene] AND " ++ variant1 ++ "[Variation Name]")) in H.
  change ("[gene] AND " ++ variant2 ++ "[Variation Name]")
    with (String "[" ("gene] AND " ++ variant2 ++ "[Variation Name]")) in H.
  destruct (split_at_first_bracket _ _ _ _ H1 H2 H) as [Hg Hr].
  split; trivial.
  apply append_cancel_left, append_cancel_right in Hr. exact Hr.
Qed.

Lemma esearch_url_injective_without_brackets_witness :
  "CHD8" = "CHD8" /\ "p.Arg1580Trp" = "p.Arg1580Trp".
Proof.
  apply (esearch_url_injective_without_brackets
           "CHD8" "p.Arg1580Trp" "CHD8" "p.Arg1580Trp"); reflexivity.
Defined.

(** With a bracket in the gene name the search term is ambiguous: two
    different requests give the same URL. *)
Lemma esearch_url_collision :
  esearch_url "A[gene] AND B" "C" = esearch_url "A" "B[gene] AND C" /\
  "A[gene] AND B" <> "A".
Proof. split; [reflexivity | discriminate]. Qed.

(** ** The two tools side by side *)

Lemma single_after_loop_shape (gene_name : string)
  (st : SingleVariant.locals) (r : value) :
  SingleVariant.after_loop gene_name st = Ret r ->
  (is_record r = false /\
   exists names,
     r = VStr ("Variant found but not associated with gene " ++ gene_name
               ++ ". Found genes: " ++ names)) \/
  (is_record r = true /\ keys r = single_record_keys).
Proof.
  unfold SingleVariant.after_loop. intros H.
  destruct (SingleVariant.var_data st) as [d |]; simpl in H; [| discriminate].
  destruct (gene_symbols_of d) as [gs |]; simpl in H; [| discriminate].
  destruct (gene_in gene_name gs) as [[|] |]; simpl in H; try discriminate.
  - bind_inv H. inversion H; subst r. right. split; reflexivity.
  - bind_inv H. inversion H; subst r. left. split; trivial.
    eexists. reflexivity.
Qed.

(** X21.  Every value the single-variant tool returns is either a string,
    one of its three messages, or a dict with the eight fields of
    [single_record_keys], which has no "Gene", "Variant" or "Error" field. *)
Theorem single_variant_value_shape
  (srv : server) (gene_name variant : string) (r : value) :
  outcome (SingleVariant.query_clinvar_for_specific_variant
             srv gene_name variant) = Ret r ->
  (is_record r = false /\
   exists msg,
     r = VStr msg /\
     ((exists cause, msg = "Error: Unable to search ClinVar. " ++ cause) \/
      msg = "No variants found for gene: " ++ gene_name \/
      (exists names,
         msg = "Variant found but not associated with gene " ++ gene_name
               ++ ". Found genes: " ++ names))) \/
  (is_record r = true /\ keys r = single_record_keys).
Proof.
  unfold SingleVariant.query_clinvar_for_specific_variant. intros H.
  rewrite outcome_bind in H.
  destruct (outcome (search srv gene_name variant)) as [[cause | id_list] |];
    [| | discriminate].
  - inversion H. left. split; trivial. eexists. split; [reflexivity |].
    left. now exists cause.
  - destruct (truthy id_list); cbn [negb] in H.
    + rewrite outcome_bind, outcome_lift in H.
      destruct (iter id_list) as [ids |]; [| discriminate].
      rewrite outcome_bind in H.
      destruct (outcome (SingleVariant.candidate_loop srv ids
                           SingleVariant.unbound)) as [st |];
        [| discriminate].
      rewrite outcome_lift in H.
      destruct (single_after_loop_shape _ _ _ H) as [[Hr [names Hn]] | Hrec].
      * left. split; trivial. eexists. split; [exact Hn |].
        right. right. now exists names.
      * now right.
    + inversion H. left. split; trivial. eexists. split; [reflexivity |].
      right. now left.
Qed.

Lemma single_variant_value_shape_witness :
  (is_record (VStr "No variants found for gene: CHD8") = false /\
   exists msg,
     VStr "No variants found for gene: CHD8" = VStr msg /\
     ((exists cause, msg = "Error: Unable to search ClinVar. " ++ cause) \/
      msg = "No variants found for gene: " ++ "CHD8" \/
      (exists names,
         msg = "Variant found but not associated with gene " ++ "CHD8"
               ++ ". Found genes: " ++ names))) \/
  (is_record (VStr "No variants found for gene: CHD8") = true /\
   keys (VStr "No variants found for gene: CHD8") = single_record_keys).
Proof.
  apply (single_variant_value_shape empty_server "CHD8" "p.X").
  reflexivity.
Defined.

(** X22.  Where the search lists one candidate, the batch tool accepts it
    and the first entry of its variation set carries a [canonical_spdi], the
    single-variant tool returns a record too, and the two records agree on
    "Variation ID", "Accession", "Title", "Canonical spdi", "Gene Symbol",
    "Chromosome" and "ACMG score". *)
Theorem tools_agree_on_single_accepted_candidate
  (srv : server) (gene_name variant : string) (v d rb c : value)
  (gs : list value) (vs : list value) (first : list (string * value)) :
  candidates srv gene_name variant [v] ->
  accepted srv gene_name v d gs ->
  Batch.build_record gene_name variant v d gs = Ret rb ->
  get d (VStr "variation_set") (VList []) = Ret (VList (VDict first :: vs)) ->
  lookup "canonical_spdi" first = Some c ->
  outcome (Batch.query_clinvar_for_specific_variant srv gene_name variant)
    = Ret rb /\
  exists rs,
    outcome (SingleVariant.query_clinvar_for_specific_variant
               srv gene_name variant) = Ret rs /\
    is_record rs = true /\
    forall k, In k shared_keys ->
              get rs (VStr k) VNone = get rb (VStr k) VNone.
Proof.
  intros Hc Ha Hb Hv Hl. split.
  - destruct Hc as [id_list [Hs [Ht Hi]]].
    unfold Batch.query_clinvar_for_specific_variant.
    rewrite outcome_bind, Hs, Ht. cbn [negb].
    rewrite outcome_bind, outcome_lift, Hi.
    change [v] with ([] ++ v :: [])%list.
    now rewrite (batch_loop_first_accepted srv gene_name variant [] [] v d rb
                   gs (Forall_nil _) Ha Hb).
  - destruct Ha as [Hp [_ [Hg [[syms [Hsy Hin]] _]]]].
    rewrite (single_query_last_fetched srv gene_name variant [] [] v d
               Hc (Forall_nil _) Hp (Forall_nil _)).
    destruct (batch_build_record_inversion _ _ _ _ _ _ Hb)
      as [m [spdi [names [acmg [cons [Hd [Hspdi [Hj [Hacmg Hrb]]]]]]]]].
    subst d rb.
    unfold SingleVariant.after_loop.
    cbn [SingleVariant.var_data SingleVariant.var_id read_local res_bind last].
    rewrite Hg. cbn [res_bind]. rewrite (gene_in_strings _ _ _ Hsy).
    cbn [res_bind]. rewrite Hin. cbn [negb].
    unfold SingleVariant.get_canonical_spdi. rewrite Hv.
    cbn [res_bind truthy subscript0 is_dict get read_local].
    rewrite Hj, Hacmg. cbn [res_bind].
    eexists. split; [reflexivity |]. split; [reflexivity |].
    unfold Batch.get_canonical_spdi in Hspdi. rewrite Hv in Hspdi.
    cbn [res_bind truthy subscript0 is_dict get] in Hspdi.
    inversion Hspdi as [Hspdi']. unfold dict_get. rewrite Hl.
    intros k Hk. unfold shared_keys in Hk.
    repeat (destruct Hk as [Hk | Hk]; [subst k; reflexivity |]).
    destruct Hk.
Qed.

Lemma tools_agree_on_single_accepted_candidate_witness :
  outcome (Batch.query_clinvar_for_specific_variant chd8_server
             "chd8" "p.Arg1580Trp") = Ret (chd8_batch_record "chd8") /\
  exists rs,
    outcome (SingleVariant.query_clinvar_for_specific_variant
               chd8_server "chd8" "p.Arg1580Trp") = Ret rs /\
    is_record rs = true /\
    forall k, In k shared_keys ->
              get rs (VStr k) VNone
              = get (chd8_batch_record "chd8") (VStr k) VNone.
Proof.
  apply (tools_agree_on_single_accepted_candidate chd8_server
           "chd8" "p.Arg1580Trp" (VStr "1") (VDict chd8_fields)
           (chd8_batch_record "chd8") (VStr "NC_000014.9:21385870:G:A")
           [VStr "CHD8"] []
           [("measure_id", VStr "0");
            ("canonical_spdi", VStr "NC_000014.9:21385870:G:A")]).
  - eexists. repeat split; reflexivity.
  - split; [eexists; split; reflexivity |].
    split; [reflexivity |]. split; [reflexivity |].
    split; [exists ["CHD8"]; split; reflexivity |].
    exists "NM_001170629.2(CHD8):c.4738C>T (p.Arg1580Trp)".
    repeat split; reflexivity.
  - reflexivity.
  - reflexivity.
  - reflexivity.
Defined.

(** ** Gene entries without a symbol, in the two tools *)











(** On [unnamed_gene_server] both branches are seen: asked for TP53 the
    single-variant tool lists "CHD8, " and the batch tool finds no match;
    asked for the empty gene name both return a record whose "Gene Symbol"
    is "CHD8, ". *)
Lemma unnamed_entry_in_both_tools :
  outcome (SingleVariant.query_clinvar_for_specific_variant
             unnamed_gene_server "TP53" "p.Arg1580Trp")
    = Ret (VStr "Variant found but not associated with gene TP53. Found genes: CHD8, ") /\
  outcome (Batch.query_clinvar_for_specific_variant
             unnamed_gene_server "TP53" "p.Arg1580Trp")
    = Ret (Batch.failure "TP53" "p.Arg1580Trp"
             "No matching ClinVar record for gene") /\
  (r <- outcome (SingleVariant.query_clinvar_for_specific_variant
                   unnamed_gene_server EmptyString "p.Arg1580Trp") ;;
   get r (VStr "Gene Symbol") VNone) = Ret (VStr "CHD8, ") /\
  (r <- outcome (Batch.query_clinvar_for_specific_variant
                   unnamed_gene_server EmptyString "p.Arg1580Trp") ;;
   get r (VStr "Gene Symbol") VNone) = Ret (VStr "CHD8, ").
Proof. repeat split; reflexivity. Qed.
